(** * Identifier utilities for molecular scaffolds
    ([Scaffold_utilities/scafid.py])

    A shallow embedding of [id_generator], [_hash_b32], [make_scaffold_id],
    [assign_ids] and [extrapolate_ids], with the library functions they call
    ([hashlib.sha1], [base64.b32encode], [str.strip], [str.encode]) written
    out so that every identifier can be computed. *)

From Stdlib Require Import ZArith Ascii String List Lia.
From stdpp Require Import gmap strings list.

Set Warnings "-clear-no-such-hyp".

Local Open Scope Z_scope.

(** ** Python values used by the module *)

(** A Python [str] restricted to code points below 256, one [ascii] per code
    point; scaffold SMILES are ASCII. *)
Definition code_point (c : ascii) : Z := Z.of_nat (nat_of_ascii c).

(** A cell of a scaffold or identifier column, [Optional[str]]: [None] stands
    for a missing value. *)
Definition cell : Type := option string.

(** ** [str.encode('utf-8')] *)

Definition utf8_char (c : ascii) : list Z :=
  let n := code_point c in
  if n <? 128 then [n]
  else [Z.lor 192 (Z.shiftr n 6); Z.lor 128 (Z.land n 63)].

Fixpoint utf8_encode (s : string) : list Z :=
  match s with
  | EmptyString => []
  | String c s' => utf8_char c ++ utf8_encode s'
  end.

(** ** [str.strip()] and [str.rstrip(chars)] *)

(** [str.isspace] on the code points below 256. *)
Definition isspace (c : ascii) : bool :=
  let n := code_point c in
  ((9 <=? n) && (n <=? 13)) || ((28 <=? n) && (n <=? 32))
  || (n =? 133) || (n =? 160).

Fixpoint lstrip (s : string) : string :=
  match s with
  | EmptyString => EmptyString
  | String c s' => if isspace c then lstrip s' else s
  end.

(** Drops the longest suffix whose characters all satisfy [p]. *)
Fixpoint rstrip_by (p : ascii -> bool) (s : string) : string :=
  match s with
  | EmptyString => EmptyString
  | String c s' =>
      match rstrip_by p s' with
      | EmptyString => if p c then EmptyString else String c EmptyString
      | r => String c r
      end
  end.

Definition strip (s : string) : string := rstrip_by isspace (lstrip s).

Definition rstrip_char (x : ascii) (s : string) : string :=
  rstrip_by (fun c => if ascii_dec c x then true else false) s.

(** ** Slicing [s[:n]] *)

Fixpoint take_str (n : nat) (s : string) : string :=
  match n, s with
  | O, _ => EmptyString
  | S _, EmptyString => EmptyString
  | S n', String c s' => String c (take_str n' s')
  end.

(** [s[:n]] for a Python [int] [n]: a negative bound counts from the end. *)
Definition slice_to (s : string) (n : Z) : string :=
  if n <? 0
  then take_str (Z.to_nat (Z.of_nat (String.length s) + n)) s
  else take_str (Z.to_nat n) s.

(** ** [hashlib.sha1] (FIPS 180-4), on bytes as [Z] *)

Module SHA1.

Definition w32 (x : Z) : Z := Z.land x 4294967295.

Definition add32 (x y : Z) : Z := w32 (x + y).

Definition rotl (n x : Z) : Z :=
  w32 (Z.lor (Z.shiftl x n) (Z.shiftr x (32 - n))).

(** Big-endian bytes of a number, [k] bytes wide. *)
Fixpoint be_bytes (k : nat) (x : Z) : list Z :=
  match k with
  | O => []
  | S k' => Z.land (Z.shiftr x (8 * Z.of_nat k')) 255 :: be_bytes k' x
  end.

Fixpoint be_value (acc : Z) (bs : list Z) : Z :=
  match bs with
  | [] => acc
  | b :: bs' => be_value (Z.lor (Z.shiftl acc 8) b) bs'
  end.

(** Padding: the bit 1, zeros up to 56 mod 64, the bit length on 8 bytes. *)
Definition pad (msg : list Z) : list Z :=
  let len := Z.of_nat (List.length msg) in
  let zeros := Z.to_nat ((55 - len) mod 64) in
  msg ++ 128 :: List.repeat 0 zeros ++ be_bytes 8 (8 * len).

Fixpoint words (n : nat) (bs : list Z) : list Z :=
  match n with
  | O => []
  | S n' => be_value 0 (firstn 4 bs) :: words n' (skipn 4 bs)
  end.

(** The message schedule kept as a window of the last 16 words. *)
Definition next_word (win : list Z) : Z :=
  rotl 1 (Z.lxor (Z.lxor (nth 13 win 0) (nth 8 win 0))
                 (Z.lxor (nth 2 win 0) (nth 0 win 0))).

Definition f_k (t : nat) (b c d : Z) : Z * Z :=
  if (t <? 20)%nat then
    (Z.lor (Z.land b c) (Z.land (Z.lxor b 4294967295) d), 1518500249)
  else if (t <? 40)%nat then
    (Z.lxor (Z.lxor b c) d, 1859775393)
  else if (t <? 60)%nat then
    (Z.lor (Z.lor (Z.land b c) (Z.land b d)) (Z.land c d), 2400959708)
  else
    (Z.lxor (Z.lxor b c) d, 3395469782).

Record state := State { h0 : Z; h1 : Z; h2 : Z; h3 : Z; h4 : Z }.

Definition round (t : nat) (w : Z) (s : state) : state :=
  let '(f, k) := f_k t (h1 s) (h2 s) (h3 s) in
  State (add32 (add32 (add32 (add32 (rotl 5 (h0 s)) f) (h4 s)) k) w)
        (h0 s) (rotl 30 (h1 s)) (h2 s) (h3 s).

Fixpoint rounds (n : nat) (t : nat) (win : list Z) (s : state) : state :=
  match n with
  | O => s
  | S n' =>
      match win with
      | [] => s
      | w :: rest => rounds n' (S t) (rest ++ [next_word win]) (round t w s)
      end
  end.

Definition compress (s : state) (block : list Z) : state :=
  let r := rounds 80 0 (words 16 block) s in
  State (add32 (h0 s) (h0 r)) (add32 (h1 s) (h1 r)) (add32 (h2 s) (h2 r))
        (add32 (h3 s) (h3 r)) (add32 (h4 s) (h4 r)).

Fixpoint blocks (n : nat) (bs : list Z) (s : state) : state :=
  match n with
  | O => s
  | S n' => blocks n' (skipn 64 bs) (compress s (firstn 64 bs))
  end.

Definition init : state :=
  State 1732584193 4023233417 2562383102 271733878 3285377520.

Definition digest (msg : list Z) : list Z :=
  let p := pad msg in
  let s := blocks (List.length p / 64) p init in
  be_bytes 4 (h0 s) ++ be_bytes 4 (h1 s) ++ be_bytes 4 (h2 s)
    ++ be_bytes 4 (h3 s) ++ be_bytes 4 (h4 s).

End SHA1.

(** ** [base64.b32encode] *)

Definition b32_alphabet : string := "ABCDEFGHIJKLMNOPQRSTUVWXYZ234567".

Definition b32_char (v : Z) : ascii :=
  match String.get (Z.to_nat v) b32_alphabet with
  | Some c => c
  | None => "="%char
  end.

(** The eight symbols of one 5-byte quantum, most significant first. *)
Definition b32_quantum (q : list Z) : list ascii :=
  let c := SHA1.be_value 0 q in
  map (fun i => b32_char (Z.land (Z.shiftr c (5 * Z.of_nat i)) 31))
      [7; 6; 5; 4; 3; 2; 1; 0]%nat.

Fixpoint b32_quanta (n : nat) (bs : list Z) : list ascii :=
  match n with
  | O => []
  | S n' => b32_quantum (firstn 5 bs) ++ b32_quanta n' (skipn 5 bs)
  end.

(** Number of [=] that replace the tail of the last quantum. *)
Definition b32_padding (leftover : nat) : nat :=
  match leftover with
  | 1 => 6 | 2 => 4 | 3 => 3 | 4 => 1 | _ => 0
  end%nat.

Definition b32encode (s : list Z) : string :=
  let leftover := (List.length s mod 5)%nat in
  let s' := if (leftover =? 0)%nat then s
            else s ++ List.repeat 0 (5 - leftover)%nat in
  let encoded := b32_quanta (List.length s' / 5) s' in
  let keep := (List.length encoded - b32_padding leftover)%nat in
  string_of_list_ascii
    (firstn keep encoded ++ List.repeat "="%char (b32_padding leftover)).

(** ** Effects: the process-wide random source, exceptions, running loops *)

(** The state of Python's [random] module, as the sequence of raw draws it
    will deliver and the position of the next one. *)
Record RandomState := { draws : nat -> nat; cursor : nat }.

Definition advance (g : RandomState) : RandomState :=
  {| draws := draws g; cursor := S (cursor g) |}.

Inductive exn : Type :=
| ValueError_strategy            (* strategy outside 'stable', 'random' *)
| ValueError_column (c : string) (* column c missing from a frame *)
| IndexError_choice.             (* random.choice on an empty sequence *)

(** Outcome of a call: a value, an exception, or a [while] loop that is still
    running after the iterations the observer allowed. *)
Inductive result (A : Type) : Type :=
| Ok (a : A)
| Raise (e : exn)
| Looping.
Arguments Ok {A} a.
Arguments Raise {A} e.
Arguments Looping {A}.

Definition M (A : Type) : Type := RandomState -> result (A * RandomState).

Definition ret {A} (a : A) : M A := fun g => Ok (a, g).

Definition bind {A B} (m : M A) (k : A -> M B) : M B :=
  fun g =>
    match m g with
    | Ok (a, g') => k a g'
    | Raise e => Raise e
    | Looping => Looping
    end.

Definition raise {A} (e : exn) : M A := fun _ => Raise e.

Definition looping {A} : M A := fun _ => Looping.

Notation "x <- m ;; k" := (bind m (fun x => k))
  (at level 100, m at next level, right associativity).

(** [Series.progress_apply(f)]: [f] on every cell, first to last. *)
Fixpoint progress_apply {A B} (f : A -> M B) (xs : list A) : M (list B) :=
  match xs with
  | [] => ret []
  | x :: xs' =>
      y <- f x;;
      ys <- progress_apply f xs';;
      ret (y :: ys)
  end.

(** [progress_apply] of a closure that reads and updates a captured set. *)
Fixpoint progress_apply_with {A B} (f : A -> gset string -> M (B * gset string))
    (xs : list A) (s : gset string) : M (list B * gset string) :=
  match xs with
  | [] => ret ([], s)
  | x :: xs' =>
      r <- f x s;;
      rs <- progress_apply_with f xs' r.2;;
      ret (r.1 :: rs.1, rs.2)
  end.

(** ** Identifier generators *)

(** [string.ascii_uppercase + string.digits] *)
Definition default_chars : string := "ABCDEFGHIJKLMNOPQRSTUVWXYZ0123456789".

(** [random.choice(chars)] *)
Definition random_choice (chars : string) : M ascii :=
  fun g =>
    match String.length chars with
    | O => Raise IndexError_choice
    | n =>
        match String.get (draws g (cursor g) mod n)%nat chars with
        | Some c => Ok (c, advance g)
        | None => Raise IndexError_choice
        end
    end.

Fixpoint join_choices (n : nat) (chars : string) : M string :=
  match n with
  | O => ret EmptyString
  | S n' =>
      c <- random_choice chars;;
      s <- join_choices n' chars;;
      ret (String c s)
  end.

(** [''.join(random.choice(chars) for _ in range(size))] *)
Definition id_generator (size : Z) (chars : string) : M string :=
  join_choices (Z.to_nat size) chars.

Definition _hash_b32 (text : string) (length : Z) : string :=
  let h := SHA1.digest (utf8_encode text) in
  let b32 := rstrip_char "="%char (b32encode h) in
  slice_to b32 length.

(** [scaffold_smiles.strip() if isinstance(scaffold_smiles, str)
     else "NA_SCAFFOLD"] *)
Definition scaffold_key (scaffold_smiles : cell) : string :=
  match scaffold_smiles with
  | Some s => strip s
  | None => "NA_SCAFFOLD"
  end.

Definition make_scaffold_id (scaffold_smiles : cell) (strategy : string)
    (length : Z) (rnd_chars : string) : M string :=
  if decide (strategy <> "stable" /\ strategy <> "random") then
    raise ValueError_strategy
  else
    let key := scaffold_key scaffold_smiles in
    if decide (strategy = "stable") then ret (_hash_b32 key length)
    else id_generator length rnd_chars.

(** ** Data frames *)

(** A [pandas.DataFrame]: named columns of cells, in column order. *)
Definition DataFrame : Type := list (string * list cell).

(** [df[c]], [None] when [c not in df.columns]. *)
Fixpoint column (df : DataFrame) (c : string) : option (list cell) :=
  match df with
  | [] => None
  | (name, cells) :: df' =>
      if decide (name = c) then Some cells else column df' c
  end.

(** [df[c] = cells]: overwrites the column in place or appends it. *)
Fixpoint set_column (df : DataFrame) (c : string) (cells : list cell)
    : DataFrame :=
  match df with
  | [] => [(c, cells)]
  | (name, old) :: df' =>
      if decide (name = c) then (name, cells) :: df'
      else (name, old) :: set_column df' c cells
  end.

(** ** Assignment and extrapolation *)

(** [while new_id in used: new_id = id_generator(size=length)], observed for
    at most [fuel] iterations. *)
Fixpoint regenerate (fuel : nat) (length : Z) (used : gset string)
    (new_id : string) : M string :=
  if decide (new_id ∈ used) then
    match fuel with
    | O => looping
    | S fuel' =>
        new_id' <- id_generator length default_chars;;
        regenerate fuel' length used new_id'
    end
  else ret new_id.

(** The closure [ensure_unique] of [assign_ids], with its captured [seen]. *)
Definition ensure_unique (fuel : nat) (length : Z) (x : string)
    (seen : gset string) : M (string * gset string) :=
  if decide (x ∈ seen) then
    new_id <- regenerate fuel length seen x;;
    ret (new_id, {[new_id]} ∪ seen)
  else ret (x, {[x]} ∪ seen).

(** [assign_ids]: the column check, the first pass with [make_scaffold_id],
    then under ['random'] the pass with [ensure_unique] over a fresh [seen].
    [fuel] is the number of iterations each retry loop is observed for. *)
Definition assign_ids (df : DataFrame) (scaffold_col id_col strategy : string)
    (length : Z) (fuel : nat) : M DataFrame :=
  match column df scaffold_col with
  | None => raise (ValueError_column scaffold_col)
  | Some scaffolds =>
      ids <- progress_apply
               (fun s => make_scaffold_id s strategy length default_chars)
               scaffolds;;
      ids <- (if decide (strategy = "random") then
                r <- progress_apply_with (ensure_unique fuel length) ids ∅;;
                ret r.1
              else ret ids);;
      ret (set_column df id_col (Some <$> ids))
  end.

(** [dict(zip(keys, values))]: a later pair overwrites an earlier one. *)
Definition dict_zip (keys values : list cell) : gmap cell cell :=
  fold_left (fun m kv => <[kv.1 := kv.2]> m) (zip keys values) ∅.

(** [str(v)] of a cell, as [Series.astype(str)] applies it. *)
Definition astype_str (v : cell) : string :=
  match v with
  | Some s => s
  | None => "None"
  end.

(** The closure [get_or_make_id] of [extrapolate_ids], with its captured
    [mapping] (read only) and [existing_ids]. *)
Definition get_or_make_id (mapping : gmap cell cell) (strategy_new : string)
    (length : Z) (fuel : nat) (scaffold : cell) (existing_ids : gset string)
    : M (cell * gset string) :=
  match mapping !! scaffold with
  | Some i => ret (i, existing_ids)
  | None =>
      new_id <- make_scaffold_id scaffold strategy_new length default_chars;;
      new_id <- (if decide (strategy_new = "random")
                 then regenerate fuel length existing_ids new_id
                 else ret new_id);;
      ret (Some new_id, {[new_id]} ∪ existing_ids)
  end.

(** [extrapolate_ids]: the column checks in the order of the source, the
    lookup and the set of registry identifiers, then [get_or_make_id] on
    every row of the new frame. *)
Definition extrapolate_ids (existing_df new_df : DataFrame)
    (scaffold_col id_col strategy_new : string) (length : Z) (fuel : nat)
    : M DataFrame :=
  match column existing_df scaffold_col, column existing_df id_col with
  | None, _ => raise (ValueError_column scaffold_col)
  | Some _, None => raise (ValueError_column id_col)
  | Some reg_keys, Some reg_ids =>
      match column new_df scaffold_col with
      | None => raise (ValueError_column scaffold_col)
      | Some scaffolds =>
          let mapping := dict_zip reg_keys reg_ids in
          let existing_ids : gset string :=
            list_to_set (astype_str <$> reg_ids) in
          r <- progress_apply_with
                 (get_or_make_id mapping strategy_new length fuel)
                 scaffolds existing_ids;;
          ret (set_column new_df id_col r.1)
      end
  end.

(** ** Vocabulary of the statements *)

(** Every character of [s] occurs in [alphabet]. *)
Definition drawn_from (alphabet s : string) : Prop :=
  Forall (fun c => c ∈ list_ascii_of_string alphabet) (list_ascii_of_string s).

(** The registry binds [k] to [i], and to nothing else. *)
Definition registry_binds (reg_keys reg_ids : list cell) (k i : cell) : Prop :=
  (k, i) ∈ zip reg_keys reg_ids /\
  forall i', (k, i') ∈ zip reg_keys reg_ids -> i' = i.

(** The identifiers of the rows whose scaffold the lookup does not hold. *)
Definition minted (mapping : gmap cell cell) (scaffolds ids : list cell)
    : list cell :=
  (filter (fun kv => mapping !! kv.1 = None) (zip scaffolds ids)).*2.

(** What [get_or_make_id] yields for a row under [strategy_new = 'stable']. *)
Definition stable_cell (mapping : gmap cell cell) (length : Z) (k : cell)
    : cell :=
  match mapping !! k with
  | Some i => i
  | None => Some (_hash_b32 (scaffold_key k) length)
  end.

(** An identifier as [id_generator(size=length)] produces it. *)
Definition generated (length : Z) (y : string) : Prop :=
  String.length y = Z.to_nat length /\ drawn_from default_chars y.

(** All identifiers of one character over the default alphabet. *)
Definition one_char_ids : list string :=
  (fun c => String c EmptyString) <$> list_ascii_of_string default_chars.

(** All identifiers of [n] characters over the default alphabet. *)
Fixpoint all_ids (n : nat) : list string :=
  match n with
  | O => [EmptyString]
  | S n' =>
      flat_map (fun c => String c <$> all_ids n')
               (list_ascii_of_string default_chars)
  end.

(** Every character of [s] is white space. *)
Definition blank (s : string) : Prop :=
  Forall (fun c => isspace c = true) (list_ascii_of_string s).

(** A run of a closure over the rows of a column, one row at a time. *)
Inductive steps {A B} (f : A -> gset string -> M (B * gset string))
  : list A -> gset string -> RandomState ->
    list B -> gset string -> RandomState -> Prop :=
| steps_nil s g : steps f [] s g [] s g
| steps_cons x xs s g y s1 g1 ys s2 g2 :
    f x s g = Ok ((y, s1), g1) ->
    steps f xs s1 g1 ys s2 g2 ->
    steps f (x :: xs) s g (y :: ys) s2 g2.

(** ** Sample inputs *)

Local Open Scope string_scope.

(** A random source whose raw draws are 0 sixteen times, then 1 sixteen
    times, and so on: its first two 8-character identifiers collide. *)
Definition slow_source : RandomState :=
  {| draws := fun i => (i / 16)%nat; cursor := 0 |}.

(** The registry {"c1ccccc1": "AB12CD"}. *)
Definition benzene_registry : DataFrame :=
  [("scaffold_smiles", [Some "c1ccccc1"]); ("scaffold_id", [Some "AB12CD"])].

Definition worked_example : DataFrame :=
  [("scaffold_smiles", [Some "c1ccccc1"; Some "c1ccccc1"; Some "NCCc1ccccc1"])].

(** Two new rows: a scaffold of the registry and an unseen one. *)
Definition two_rows : DataFrame :=
  [("scaffold_smiles", [Some "c1ccccc1"; Some "c1ccncc1"])].

(** 37 rows, one more than there are identifiers of length 1. *)
Definition frame_37 : DataFrame :=
  [("scaffold_smiles", replicate 37 (Some "c1ccccc1"))].

(** * Properties *)

(** ** The monad *)

Lemma bind_Ok {A B} (m : M A) (k : A -> M B) g r :
  bind m k g = Ok r -> exists a g1, m g = Ok (a, g1) /\ k a g1 = Ok r.
Proof.
  unfold bind. destruct (m g) as [[a g1]| |]; [|discriminate..].
  intros H. by exists a, g1.
Qed.

Lemma bind_eq_Ok {A B} (m : M A) (k : A -> M B) g a g1 :
  m g = Ok (a, g1) -> bind m k g = k a g1.
Proof. unfold bind. by intros ->. Qed.

Lemma bind_eq_Raise {A B} (m : M A) (k : A -> M B) g e :
  m g = Raise e -> bind m k g = Raise e.
Proof. unfold bind. by intros ->. Qed.

Lemma bind_eq_Looping {A B} (m : M A) (k : A -> M B) g :
  m g = Looping -> bind m k g = Looping.
Proof. unfold bind. by intros ->. Qed.

Ltac inv_bind H :=
  let a := fresh "a" in
  let g1 := fresh "g" in
  let H1 := fresh "Hrun" in
  apply bind_Ok in H as (a & g1 & H1 & H).

Lemma ret_Ok {A} (a b : A) g g' : ret a g = Ok (b, g') -> a = b /\ g = g'.
Proof. unfold ret. intros H. by simplify_eq. Qed.

Ltac inv_ret H := apply ret_Ok in H as [? ?]; simplify_eq.

(** ** Strings *)

Lemma get_elem_of n s c :
  String.get n s = Some c -> c ∈ list_ascii_of_string s.
Proof.
  revert n. induction s as [|a s IH]; intros [|n] H; simpl in *;
    try discriminate.
  - injection H as ->. left.
  - right. eauto.
Qed.

Lemma get_is_Some n s :
  (n < String.length s)%nat -> exists c, String.get n s = Some c.
Proof.
  revert n. induction s as [|a s IH]; intros [|n] H; simpl in *; try lia; eauto.
  apply IH. lia.
Qed.

Lemma take_str_length n s :
  String.length (take_str n s) = Nat.min n (String.length s).
Proof.
  revert s. induction n as [|n IH]; intros [|a s]; simpl; auto.
Qed.

Lemma take_str_drawn alphabet n s :
  drawn_from alphabet s -> drawn_from alphabet (take_str n s).
Proof.
  unfold drawn_from. revert s.
  induction n as [|n IH]; intros [|a s] H; simpl in *; auto.
  inversion H; subst. constructor; auto.
Qed.

Lemma slice_to_drawn alphabet s n :
  drawn_from alphabet s -> drawn_from alphabet (slice_to s n).
Proof. unfold slice_to. destruct (n <? 0)%Z; apply take_str_drawn. Qed.

Lemma slice_to_length s n :
  (0 <= n)%Z ->
  String.length (slice_to s n) = Nat.min (Z.to_nat n) (String.length s).
Proof.
  intros Hn. unfold slice_to.
  destruct (Z.ltb_spec n 0); [lia|]. apply take_str_length.
Qed.

Lemma rstrip_by_none p s :
  Forall (fun c => p c = false) (list_ascii_of_string s) -> rstrip_by p s = s.
Proof.
  induction s as [|a s IH]; simpl; intros H; [done|].
  inversion H as [|? ? Ha Hs]; subst. rewrite (IH Hs).
  destruct s; [by rewrite Ha | done].
Qed.

Lemma string_of_list_length (l : list ascii) :
  String.length (string_of_list_ascii l) = List.length l.
Proof. induction l; simpl; auto. Qed.

(** ** The library functions on their published test vectors *)

Example sha1_abc :
  SHA1.digest (utf8_encode "abc")
  = [169; 153; 62; 54; 71; 6; 129; 106; 186; 62;
     37; 113; 120; 80; 194; 108; 156; 208; 216; 157]%Z.
Proof. vm_compute. reflexivity. Qed.

Example sha1_empty :
  SHA1.digest (utf8_encode EmptyString)
  = [218; 57; 163; 238; 94; 107; 75; 13; 50; 85;
     191; 239; 149; 96; 24; 144; 175; 216; 7; 9]%Z.
Proof. vm_compute. reflexivity. Qed.

Example sha1_two_blocks :
  SHA1.digest
    (utf8_encode "abcdbcdecdefdefgefghfghighijhijkijkljklmklmnlmnomnopnopq")
  = [132; 152; 62; 68; 28; 59; 210; 110; 186; 174;
     74; 161; 249; 81; 41; 229; 229; 70; 112; 241]%Z.
Proof. vm_compute. reflexivity. Qed.

Example b32encode_vectors :
  b32encode (utf8_encode EmptyString) = EmptyString /\
  b32encode (utf8_encode "f") = "MY======" /\
  b32encode (utf8_encode "fo") = "MZXQ====" /\
  b32encode (utf8_encode "foo") = "MZXW6===" /\
  b32encode (utf8_encode "foob") = "MZXW6YQ=" /\
  b32encode (utf8_encode "fooba") = "MZXW6YTB" /\
  b32encode (utf8_encode "foobar") = "MZXW6YTBOI======".
Proof. repeat split; vm_compute; reflexivity. Qed.

Example strip_and_slice :
  strip "  c1ccccc1 " = "c1ccccc1" /\ strip "   " = EmptyString /\
  rstrip_char "="%char "MZXW6===" = "MZXW6" /\
  slice_to "ABCDEF" 4 = "ABCD" /\ slice_to "ABCDEF" 9 = "ABCDEF" /\
  slice_to "ABCDEF" (-2) = "ABCD".
Proof. repeat split; vm_compute; reflexivity. Qed.

Example _hash_b32_benzene : _hash_b32 "c1ccccc1" 8 = "QREAIMMB".
Proof. vm_compute. reflexivity. Qed.

(** ** The stable hash *)

Lemma be_bytes_length k x : List.length (SHA1.be_bytes k x) = k.
Proof. induction k; simpl; auto. Qed.

Lemma digest_length msg : List.length (SHA1.digest msg) = 20%nat.
Proof.
  unfold SHA1.digest. cbv zeta.
  rewrite !length_app, !be_bytes_length. reflexivity.
Qed.

Lemma land_31_range x : (0 <= Z.land x 31 < 32)%Z.
Proof.
  change 31%Z with (Z.ones 5). rewrite Z.land_ones by lia.
  apply Z.mod_pos_bound. reflexivity.
Qed.

Lemma b32_char_in_alphabet v :
  (0 <= v < 32)%Z -> b32_char v ∈ list_ascii_of_string b32_alphabet.
Proof.
  intros Hv. unfold b32_char.
  destruct (get_is_Some (Z.to_nat v) b32_alphabet) as [c Hc].
  - change (String.length b32_alphabet) with 32%nat. lia.
  - rewrite Hc. eapply get_elem_of, Hc.
Qed.

Lemma b32_quantum_spec q :
  List.length (b32_quantum q) = 8%nat /\
  Forall (fun c => c ∈ list_ascii_of_string b32_alphabet) (b32_quantum q).
Proof.
  unfold b32_quantum. split; [reflexivity|].
  cbv zeta. apply Forall_map, Forall_forall. intros i _.
  apply b32_char_in_alphabet, land_31_range.
Qed.

Lemma b32_quanta_spec n bs :
  List.length (b32_quanta n bs) = (8 * n)%nat /\
  Forall (fun c => c ∈ list_ascii_of_string b32_alphabet) (b32_quanta n bs).
Proof.
  revert bs. induction n as [|n IH]; intros bs; cbn [b32_quanta].
  - split; [reflexivity | constructor].
  - destruct (b32_quantum_spec (firstn 5 bs)) as [Hl Hf].
    destruct (IH (skipn 5 bs)) as [Hl' Hf'].
    split.
    + rewrite length_app, Hl, Hl'. lia.
    + apply Forall_app. split; assumption.
Qed.

Lemma b32encode_20 s :
  List.length s = 20%nat ->
  b32encode s = string_of_list_ascii (b32_quanta 4 s).
Proof.
  intros H. unfold b32encode. rewrite H. cbv zeta.
  change (20 mod 5)%nat with 0%nat. cbn [Nat.eqb b32_padding repeat].
  rewrite H. change (20 / 5)%nat with 4%nat.
  rewrite Nat.sub_0_r, firstn_all, app_nil_r. reflexivity.
Qed.

Lemma equals_not_b32 c :
  c ∈ list_ascii_of_string b32_alphabet ->
  (if ascii_dec c "="%char then true else false) = false.
Proof.
  intros Hc. destruct (ascii_dec c "="%char) as [->|]; [|done].
  exfalso. revert Hc. vm_compute. intros Hc.
  repeat (apply elem_of_cons in Hc as [Hc|Hc]; [discriminate|]).
  by apply elem_of_nil in Hc.
Qed.

(** The encoded digest before slicing: 32 symbols of the base-32 alphabet,
    none of them padding. *)
Lemma encoded_digest_spec text :
  let b32 :=
    rstrip_char "="%char (b32encode (SHA1.digest (utf8_encode text))) in
  String.length b32 = 32%nat /\ drawn_from b32_alphabet b32.
Proof.
  cbv zeta. rewrite b32encode_20 by apply digest_length.
  destruct (b32_quanta_spec 4 (SHA1.digest (utf8_encode text))) as [Hl Hf].
  unfold rstrip_char. rewrite rstrip_by_none.
  - split.
    + rewrite string_of_list_length. exact Hl.
    + unfold drawn_from. by rewrite list_ascii_of_string_of_list_ascii.
  - rewrite list_ascii_of_string_of_list_ascii.
    eapply Forall_impl; [exact Hf|]. intros c Hc. by apply equals_not_b32.
Qed.

Lemma _hash_b32_length text length :
  (0 <= length)%Z ->
  String.length (_hash_b32 text length) = Z.to_nat (Z.min length 32).
Proof.
  intros Hl. unfold _hash_b32. cbv zeta.
  rewrite slice_to_length by done.
  rewrite (proj1 (encoded_digest_spec text)). lia.
Qed.

Lemma _hash_b32_drawn text length :
  drawn_from b32_alphabet (_hash_b32 text length).
Proof.
  unfold _hash_b32. cbv zeta.
  apply slice_to_drawn, (proj2 (encoded_digest_spec text)).
Qed.

(** ** The random generator *)

Lemma random_choice_Ok chars g :
  chars <> EmptyString ->
  exists c, random_choice chars g = Ok (c, advance g) /\
            c ∈ list_ascii_of_string chars.
Proof.
  intros Hne. unfold random_choice.
  destruct (String.length chars) as [|n] eqn:Hlen.
  { destruct chars; [done | discriminate]. }
  destruct (get_is_Some (draws g (cursor g) mod S n) chars) as [c Hc].
  { rewrite Hlen. apply Nat.mod_upper_bound. lia. }
  rewrite Hc. exists c. split; [done|]. eapply get_elem_of, Hc.
Qed.

Lemma join_choices_Ok n chars g :
  chars <> EmptyString ->
  exists s g', join_choices n chars g = Ok (s, g') /\
               String.length s = n /\ drawn_from chars s.
Proof.
  intros Hne. revert g. induction n as [|n IH]; intros g; simpl.
  - exists EmptyString, g. repeat split. constructor.
  - destruct (random_choice_Ok chars g Hne) as (c & Hc & Hin).
    destruct (IH (advance g)) as (s & g' & Hs & Hlen & Hd).
    exists (String c s), g'. repeat split.
    + rewrite (bind_eq_Ok _ _ _ _ _ Hc), (bind_eq_Ok _ _ _ _ _ Hs). done.
    + simpl. by rewrite Hlen.
    + constructor; assumption.
Qed.

Lemma id_generator_Ok size chars g :
  chars <> EmptyString ->
  exists s g', id_generator size chars g = Ok (s, g') /\
               String.length s = Z.to_nat size /\ drawn_from chars s.
Proof. apply join_choices_Ok. Qed.

Lemma default_chars_nonempty : default_chars <> EmptyString.
Proof. discriminate. Qed.

(** ** [make_scaffold_id] *)

Lemma make_scaffold_id_stable scaffold length chars g :
  make_scaffold_id scaffold "stable" length chars g
  = Ok (_hash_b32 (scaffold_key scaffold) length, g).
Proof.
  unfold make_scaffold_id.
  destruct (decide ("stable" <> "stable" /\ "stable" <> "random")) as [[H _]|_];
    [done|].
  destruct (decide ("stable" = "stable")); done.
Qed.

Lemma make_scaffold_id_random scaffold length chars g :
  make_scaffold_id scaffold "random" length chars g
  = id_generator length chars g.
Proof.
  unfold make_scaffold_id.
  destruct (decide ("random" <> "stable" /\ "random" <> "random")) as [[_ H]|_];
    [done|].
  destruct (decide ("random" = "stable")); done.
Qed.

Lemma make_scaffold_id_unknown scaffold strategy length chars g :
  strategy <> "stable" -> strategy <> "random" ->
  make_scaffold_id scaffold strategy length chars g = Raise ValueError_strategy.
Proof.
  intros H1 H2. unfold make_scaffold_id.
  destruct (decide (strategy <> "stable" /\ strategy <> "random")) as [_|H];
    [done|].
  exfalso. apply H. by split.
Qed.

(** ** Frames and [progress_apply] *)

Lemma column_set_column df c cells :
  column (set_column df c cells) c = Some cells.
Proof.
  induction df as [|[name old] df IH]; simpl.
  - by destruct (decide (c = c)).
  - destruct (decide (name = c)) as [->|Hne]; simpl.
    + by destruct (decide (c = c)).
    + by destruct (decide (name = c)).
Qed.

Lemma progress_apply_pure {A B} (f : A -> M B) (h : A -> B) xs g :
  (forall x g, f x g = Ok (h x, g)) ->
  progress_apply f xs g = Ok (h <$> xs, g).
Proof.
  intros Hf. induction xs as [|x xs IH]; simpl; [done|].
  by rewrite (bind_eq_Ok _ _ _ _ _ (Hf x g)), (bind_eq_Ok _ _ _ _ _ IH).
Qed.

Lemma progress_apply_total {A B} (f : A -> M B) (P : B -> Prop) xs g :
  (forall x g, exists y g', f x g = Ok (y, g') /\ P y) ->
  exists ys g', progress_apply f xs g = Ok (ys, g') /\
                Forall P ys /\ List.length ys = List.length xs.
Proof.
  intros Hf. revert g. induction xs as [|x xs IH]; intros g; simpl.
  - exists [], g. by repeat split.
  - destruct (Hf x g) as (y & g1 & Hy & HP).
    destruct (IH g1) as (ys & g2 & Hys & HPs & Hlen).
    exists (y :: ys), g2. repeat split.
    + by rewrite (bind_eq_Ok _ _ _ _ _ Hy), (bind_eq_Ok _ _ _ _ _ Hys).
    + by constructor.
    + simpl. by rewrite Hlen.
Qed.

Lemma progress_apply_raise {A B} (f : A -> M B) x xs g e :
  f x g = Raise e -> progress_apply f (x :: xs) g = Raise e.
Proof. intros H. simpl. by apply bind_eq_Raise. Qed.

Lemma progress_apply_with_steps {A B}
    (f : A -> gset string -> M (B * gset string)) xs s g ys s' g' :
  progress_apply_with f xs s g = Ok ((ys, s'), g') <->
  steps f xs s g ys s' g'.
Proof.
  split.
  - revert s g ys s' g'. induction xs as [|x xs IH]; intros s g ys s' g' H.
    + inv_ret H. constructor.
    + simpl in H. inv_bind H. destruct a as [y s1].
      inv_bind H. destruct a as [ys1 s2]. inv_ret H. simpl in *.
      econstructor; eauto.
  - induction 1 as [|x xs s g y s1 g1 ys s2 g2 Hf _ IH]; [done|].
    simpl. rewrite (bind_eq_Ok _ _ _ _ _ Hf). simpl.
    by rewrite (bind_eq_Ok _ _ _ _ _ IH).
Qed.

Lemma steps_length {A B} (f : A -> gset string -> M (B * gset string))
    xs s g ys s' g' :
  steps f xs s g ys s' g' -> List.length ys = List.length xs.
Proof. induction 1; simpl; auto. Qed.

(** ** The retry loop *)

Lemma id_generator_generated length g :
  exists y g', id_generator length default_chars g = Ok (y, g') /\
               generated length y.
Proof.
  destruct (id_generator_Ok length default_chars g default_chars_nonempty)
    as (y & g' & H & Hl & Hd).
  by exists y, g'.
Qed.

Lemma regenerate_Ok fuel length used x g y g' :
  regenerate fuel length used x g = Ok (y, g') ->
  (y ∉ used) /\ (y = x \/ generated length y).
Proof.
  revert x g. induction fuel as [|fuel IH]; intros x g H; simpl in H.
  - destruct (decide (x ∈ used)); [discriminate|]. inv_ret H. auto.
  - destruct (decide (x ∈ used)).
    + inv_bind H. apply IH in H as [Hy [->|Hg]]; split; auto.
      right. destruct (id_generator_generated length g) as (y' & g2 & Hy' & Hg).
      rewrite Hy' in Hrun. by simplify_eq.
    + inv_ret H. auto.
Qed.

(** The loop never raises: either it is still running or it has returned. *)
Lemma regenerate_outcome fuel length used x g :
  regenerate fuel length used x g = Looping \/
  exists y g', regenerate fuel length used x g = Ok (y, g').
Proof.
  revert x g. induction fuel as [|fuel IH]; intros x g; simpl.
  - destruct (decide (x ∈ used)); [by left | right; by eexists _, _].
  - destruct (decide (x ∈ used)); [|right; by eexists _, _].
    destruct (id_generator_generated length g) as (y & g1 & Hy & _).
    rewrite (bind_eq_Ok _ _ _ _ _ Hy). apply IH.
Qed.

(** More patience never changes an answer already obtained. *)
Lemma regenerate_mono fuel extra length used x g r :
  regenerate fuel length used x g = Ok r ->
  regenerate (fuel + extra) length used x g = Ok r.
Proof.
  revert x g. induction fuel as [|fuel IH]; intros x g H; simpl in *.
  - destruct (decide (x ∈ used)); [discriminate|].
    destruct extra; simpl; by destruct (decide (x ∈ used)).
  - destruct (decide (x ∈ used)); [|done].
    inv_bind H. rewrite (bind_eq_Ok _ _ _ _ _ Hrun). by apply IH.
Qed.

(** When every candidate of the requested length is used, it runs for ever. *)
Lemma regenerate_exhausted fuel length used x g :
  (forall y, generated length y -> y ∈ used) -> x ∈ used ->
  regenerate fuel length used x g = Looping.
Proof.
  intros Hall. revert x g. induction fuel as [|fuel IH]; intros x g Hx; simpl.
  - by destruct (decide (x ∈ used)).
  - destruct (decide (x ∈ used)); [|done].
    destruct (id_generator_generated length g) as (y & g1 & Hy & Hg).
    rewrite (bind_eq_Ok _ _ _ _ _ Hy). apply IH. by apply Hall.
Qed.

Lemma generated_one_char y : generated 1 y -> y ∈ one_char_ids.
Proof.
  intros [Hlen Hd]. destruct y as [|c [|c' y]]; try discriminate.
  unfold drawn_from in Hd. simpl in Hd. apply Forall_cons in Hd as [Hc _].
  unfold one_char_ids. apply list_elem_of_fmap. by exists c.
Qed.

(** ** [ensure_unique] *)

Lemma ensure_unique_Ok fuel length x seen g y seen' g' :
  ensure_unique fuel length x seen g = Ok ((y, seen'), g') ->
  (y ∉ seen) /\ seen' = {[y]} ∪ seen /\ (y = x \/ generated length y).
Proof.
  unfold ensure_unique. intros H. destruct (decide (x ∈ seen)).
  - inv_bind H. inv_ret H. apply regenerate_Ok in Hrun as [? ?]. auto.
  - inv_ret H. auto.
Qed.

Lemma steps_ensure_unique fuel length xs seen g ys seen' g' :
  steps (ensure_unique fuel length) xs seen g ys seen' g' ->
  NoDup ys /\ (forall y, y ∈ ys -> y ∉ seen) /\
  seen' = list_to_set ys ∪ seen /\
  (Forall (generated length) xs -> Forall (generated length) ys).
Proof.
  induction 1 as [|x xs s g y s1 g1 ys s2 g2 Hf _ IH].
  - repeat split; [constructor | set_solver | set_solver | done].
  - apply ensure_unique_Ok in Hf as (Hy & -> & Hgen).
    destruct IH as (Hnd & Hnew & -> & Hall).
    repeat split.
    + constructor; [|done]. intros Hin. apply Hnew in Hin. set_solver.
    + intros z [->|Hz]%elem_of_cons; [done|]. apply Hnew in Hz. set_solver.
    + set_solver.
    + intros [Hx Hxs]%Forall_cons. constructor; [|by apply Hall].
      by destruct Hgen as [->|].
Qed.

(** ** The lookup built from the registry *)

Lemma fold_insert_lookup (l : list (cell * cell)) (m : gmap cell cell) k v :
  fold_left (fun m kv => <[kv.1 := kv.2]> m) l m !! k = Some v ->
  (k, v) ∈ l \/ m !! k = Some v.
Proof.
  revert m. induction l as [|[k' v'] l IH]; intros m H; simpl in *; [by right|].
  apply IH in H as [H|H]; [left; by right|].
  destruct (decide (k' = k)) as [->|Hne].
  - rewrite lookup_insert_eq in H. simplify_eq. left. left.
  - rewrite lookup_insert_ne in H by done. by right.
Qed.

Lemma fold_insert_bound (l : list (cell * cell)) (m : gmap cell cell) k :
  is_Some (m !! k) \/ k ∈ l.*1 ->
  is_Some (fold_left (fun m kv => <[kv.1 := kv.2]> m) l m !! k).
Proof.
  revert m. induction l as [|[k' v'] l IH]; intros m H; simpl in *.
  - destruct H as [H|H]; [done | by apply elem_of_nil in H].
  - apply IH. destruct (decide (k' = k)) as [->|Hne].
    + left. rewrite lookup_insert_eq. by eexists.
    + destruct H as [H|H].
      * left. by rewrite lookup_insert_ne.
      * apply elem_of_cons in H as [H|H]; [simpl in H; congruence | by right].
Qed.

Lemma dict_zip_binds reg_keys reg_ids k i :
  registry_binds reg_keys reg_ids k i ->
  dict_zip reg_keys reg_ids !! k = Some i.
Proof.
  intros [Hin Huniq]. unfold dict_zip.
  destruct (fold_insert_bound (zip reg_keys reg_ids) ∅ k) as [v Hv].
  { right. apply list_elem_of_fmap. by exists (k, i). }
  rewrite Hv. f_equal.
  apply fold_insert_lookup in Hv as [Hv|Hv]; [by apply Huniq|].
  by rewrite lookup_empty in Hv.
Qed.

Lemma dict_zip_absent reg_keys reg_ids k :
  dict_zip reg_keys reg_ids !! k = None <-> k ∉ (zip reg_keys reg_ids).*1.
Proof.
  unfold dict_zip. split.
  - intros Hnone Hin.
    destruct (fold_insert_bound (zip reg_keys reg_ids) ∅ k) as [v Hv];
      [by right | congruence].
  - intros Hnot.
    destruct (fold_left _ _ _ !! k) as [v|] eqn:Hv; [|done].
    apply fold_insert_lookup in Hv as [Hv|Hv].
    + exfalso. apply Hnot, list_elem_of_fmap. by exists (k, v).
    + by rewrite lookup_empty in Hv.
Qed.

(** A key of the registry is looked up to one of the identifiers the
    registry gives it. *)
Lemma dict_zip_present reg_keys reg_ids k :
  k ∈ (zip reg_keys reg_ids).*1 ->
  exists i, dict_zip reg_keys reg_ids !! k = Some i /\
            (k, i) ∈ zip reg_keys reg_ids.
Proof.
  intros Hin. unfold dict_zip.
  destruct (fold_insert_bound (zip reg_keys reg_ids) ∅ k) as [i Hi];
    [by right|].
  exists i. split; [done|].
  apply fold_insert_lookup in Hi as [Hi|Hi]; [done|].
  by rewrite lookup_empty in Hi.
Qed.

(** ** [get_or_make_id] *)

Lemma get_or_make_id_known mapping strategy_new length fuel k i used g :
  mapping !! k = Some i ->
  get_or_make_id mapping strategy_new length fuel k used g = Ok ((i, used), g).
Proof. intros H. unfold get_or_make_id. by rewrite H. Qed.

Lemma get_or_make_id_stable mapping length fuel k used g :
  mapping !! k = None ->
  get_or_make_id mapping "stable" length fuel k used g
  = Ok ((Some (_hash_b32 (scaffold_key k) length),
         {[_hash_b32 (scaffold_key k) length]} ∪ used), g).
Proof.
  intros H. unfold get_or_make_id. rewrite H.
  rewrite (bind_eq_Ok _ _ _ _ _ (make_scaffold_id_stable _ _ _ _)).
  by destruct (decide ("stable" = "random")).
Qed.

Lemma get_or_make_id_random mapping length fuel k used g y used' g' :
  mapping !! k = None ->
  get_or_make_id mapping "random" length fuel k used g = Ok ((y, used'), g') ->
  exists new_id, y = Some new_id /\ (new_id ∉ used) /\
                 used' = {[new_id]} ∪ used /\ generated length new_id.
Proof.
  intros Hk H. unfold get_or_make_id in H. rewrite Hk in H.
  inv_bind H. rewrite make_scaffold_id_random in Hrun.
  destruct (id_generator_generated length g) as (x & g2 & Hx & Hgen).
  rewrite Hx in Hrun. simplify_eq.
  destruct (decide ("random" = "random")); [|done].
  inv_bind H. inv_ret H. apply regenerate_Ok in Hrun as [Hfresh Hor].
  eexists. split; [reflexivity|]. split; [done|]. split; [reflexivity|].
  by destruct Hor as [->|].
Qed.

(** Rows whose scaffold the lookup holds receive the identifier it holds. *)
Lemma steps_known mapping strategy_new length fuel xs s g ys s' g' :
  steps (get_or_make_id mapping strategy_new length fuel) xs s g ys s' g' ->
  forall n k i, xs !! n = Some k -> mapping !! k = Some i -> ys !! n = Some i.
Proof.
  induction 1 as [|x xs s g y s1 g1 ys s2 g2 Hf _ IH]; intros n k i Hn Hk.
  - by rewrite lookup_nil in Hn.
  - destruct n as [|n]; simpl in *; [|by eapply IH].
    simplify_eq. rewrite (get_or_make_id_known _ _ _ _ _ _ _ _ Hk) in Hf.
    by simplify_eq.
Qed.

(** The captured set only grows. *)
Lemma steps_grow mapping strategy_new length fuel xs s g ys s' g' :
  steps (get_or_make_id mapping strategy_new length fuel) xs s g ys s' g' ->
  s ⊆ s'.
Proof.
  induction 1 as [|x xs s g y s1 g1 ys s2 g2 Hf _ IH]; [done|].
  etrans; [|exact IH]. unfold get_or_make_id in Hf.
  destruct (mapping !! x).
  - inv_ret Hf. done.
  - inv_bind Hf. inv_bind Hf. inv_ret Hf. set_solver.
Qed.

(** ** Newly minted identifiers *)

Lemma minted_cons mapping k y xs ys :
  minted mapping (k :: xs) (y :: ys)
  = match mapping !! k with
    | Some _ => minted mapping xs ys
    | None => y :: minted mapping xs ys
    end.
Proof.
  unfold minted. simpl. destruct (mapping !! k) as [i|] eqn:Hk.
  - rewrite filter_cons_False; [done|]. simpl. by rewrite Hk.
  - rewrite filter_cons_True; [done|]. done.
Qed.

Lemma minted_elem mapping xs ys n k y :
  xs !! n = Some k -> ys !! n = Some y -> mapping !! k = None ->
  y ∈ minted mapping xs ys.
Proof.
  revert ys n. induction xs as [|x xs IH]; intros [|y' ys] [|n] Hx Hy Hk;
    simpl in *; try discriminate.
  - simplify_eq. rewrite minted_cons, Hk. left.
  - rewrite minted_cons. specialize (IH ys n Hx Hy Hk).
    destruct (mapping !! x); [done | by right].
Qed.

Lemma minted_distinct mapping xs ys n m k1 k2 y1 y2 :
  NoDup (minted mapping xs ys) -> n <> m ->
  xs !! n = Some k1 -> ys !! n = Some y1 -> mapping !! k1 = None ->
  xs !! m = Some k2 -> ys !! m = Some y2 -> mapping !! k2 = None ->
  y1 <> y2.
Proof.
  revert ys n m.
  induction xs as [|x xs IH];
    intros [|y ys] n m Hnd Hnm Hx1 Hy1 Hk1 Hx2 Hy2 Hk2;
    try (by destruct n); try (by destruct m).
  rewrite minted_cons in Hnd.
  destruct n as [|n], m as [|m]; simpl in *; simplify_eq.
  - rewrite Hk1 in Hnd. apply NoDup_cons in Hnd as [Hnot _].
    intros ->. apply Hnot. eapply minted_elem; eauto.
  - rewrite Hk2 in Hnd. apply NoDup_cons in Hnd as [Hnot _].
    intros ->. apply Hnot. eapply minted_elem; eauto.
  - apply (IH ys n m); auto.
    destruct (mapping !! x); [done|]. by apply NoDup_cons in Hnd as [_ ?].
Qed.

(** Under ['random'] every minted identifier is new to the captured set and
    to the identifiers minted before it. *)
Lemma steps_random_fresh mapping length fuel xs s g ys s' g' :
  steps (get_or_make_id mapping "random" length fuel) xs s g ys s' g' ->
  NoDup (minted mapping xs ys) /\
  forall c, c ∈ minted mapping xs ys ->
            exists new_id, c = Some new_id /\ (new_id ∉ s) /\
                           generated length new_id.
Proof.
  induction 1 as [|x xs s g y s1 g1 ys s2 g2 Hf Hsteps IH].
  - split; [constructor|]. intros c Hc. by apply elem_of_nil in Hc.
  - destruct IH as [Hnd Hnew]. rewrite minted_cons.
    destruct (mapping !! x) as [i|] eqn:Hx.
    + rewrite (get_or_make_id_known _ _ _ _ _ _ _ _ Hx) in Hf. simplify_eq.
      by split.
    + apply get_or_make_id_random in Hf as (new_id & -> & Hfresh & -> & Hgen);
        [|done].
      split.
      * constructor; [|done]. intros Hin.
        apply Hnew in Hin as (z & Hz & Hnot & _). simplify_eq. set_solver.
      * intros c [->|Hc]%elem_of_cons; [by exists new_id|].
        apply Hnew in Hc as (z & -> & Hnot & Hg).
        exists z. split; [done|]. split; [set_solver | done].
Qed.

(** Under ['stable'] the run always returns, leaves the random source alone
    and gives every row its [stable_cell]. *)
Lemma progress_apply_with_stable mapping length fuel xs s g :
  exists s', progress_apply_with (get_or_make_id mapping "stable" length fuel)
               xs s g
             = Ok ((stable_cell mapping length <$> xs, s'), g).
Proof.
  revert s. induction xs as [|x xs IH]; intros s; simpl.
  - by exists s.
  - unfold stable_cell at 1. destruct (mapping !! x) as [i|] eqn:Hx.
    + rewrite (bind_eq_Ok _ _ _ _ _ (get_or_make_id_known _ _ _ _ _ _ _ _ Hx)).
      destruct (IH s) as [s' Hs']. exists s'. simpl.
      by rewrite (bind_eq_Ok _ _ _ _ _ Hs').
    + rewrite (bind_eq_Ok _ _ _ _ _ (get_or_make_id_stable _ _ _ _ _ _ Hx)).
      simpl. destruct (IH ({[_hash_b32 (scaffold_key x) length]} ∪ s))
        as [s' Hs'].
      exists s'. by rewrite (bind_eq_Ok _ _ _ _ _ Hs').
Qed.

(** When the lookup holds every scaffold, nothing is minted and nothing is
    drawn. *)
Lemma progress_apply_with_known mapping strategy_new length fuel xs s g :
  Forall (fun k => is_Some (mapping !! k)) xs ->
  exists ids, progress_apply_with
                (get_or_make_id mapping strategy_new length fuel) xs s g
              = Ok ((ids, s), g).
Proof.
  induction 1 as [|k ks [i Hk] _ [ids IH]]; [by exists nil|].
  exists (i :: ids). simpl.
  rewrite (bind_eq_Ok _ _ _ _ _ (get_or_make_id_known _ _ _ _ _ _ _ _ Hk)).
  simpl. by rewrite (bind_eq_Ok _ _ _ _ _ IH).
Qed.

(** ** [extrapolate_ids] *)

Section Extrapolation.
Variables (existing_df new_df : DataFrame).
Variables (scaffold_col id_col : string).
Variables (reg_keys reg_ids scaffolds : list cell).
Hypothesis Hkeys : column existing_df scaffold_col = Some reg_keys.
Hypothesis Hids : column existing_df id_col = Some reg_ids.
Hypothesis Hnew : column new_df scaffold_col = Some scaffolds.

Lemma extrapolate_ids_run strategy_new length fuel g :
  extrapolate_ids existing_df new_df scaffold_col id_col strategy_new
    length fuel g
  = bind (progress_apply_with
            (get_or_make_id (dict_zip reg_keys reg_ids) strategy_new length
               fuel)
            scaffolds (list_to_set (astype_str <$> reg_ids)))
         (fun r => ret (set_column new_df id_col r.1)) g.
Proof. unfold extrapolate_ids. by rewrite Hkeys, Hids, Hnew. Qed.

Lemma extrapolate_ids_Ok strategy_new length fuel g out g' :
  extrapolate_ids existing_df new_df scaffold_col id_col strategy_new
    length fuel g = Ok (out, g') ->
  exists ids s',
    steps (get_or_make_id (dict_zip reg_keys reg_ids) strategy_new length fuel)
          scaffolds (list_to_set (astype_str <$> reg_ids)) g ids s' g' /\
    out = set_column new_df id_col ids /\
    column out id_col = Some ids /\
    List.length ids = List.length scaffolds.
Proof.
  rewrite extrapolate_ids_run. intros H. inv_bind H.
  destruct a as [ids s']. inv_ret H. simpl.
  apply progress_apply_with_steps in Hrun.
  exists ids, s'. split; [done|]. split; [done|].
  split; [apply column_set_column | by eapply steps_length].
Qed.

Lemma extrapolate_ids_stable length fuel g :
  extrapolate_ids existing_df new_df scaffold_col id_col "stable"
    length fuel g
  = Ok (set_column new_df id_col
          (stable_cell (dict_zip reg_keys reg_ids) length <$> scaffolds), g).
Proof.
  rewrite extrapolate_ids_run.
  destruct (progress_apply_with_stable (dict_zip reg_keys reg_ids) length
              fuel scaffolds (list_to_set (astype_str <$> reg_ids)) g)
    as [s' Hs'].
  by rewrite (bind_eq_Ok _ _ _ _ _ Hs').
Qed.

Lemma extrapolate_ids_all_known strategy_new length fuel g :
  Forall (fun k => is_Some (dict_zip reg_keys reg_ids !! k)) scaffolds ->
  exists out, extrapolate_ids existing_df new_df scaffold_col id_col
                strategy_new length fuel g = Ok (out, g).
Proof.
  intros Hall. rewrite extrapolate_ids_run.
  destruct (progress_apply_with_known (dict_zip reg_keys reg_ids)
              strategy_new length fuel scaffolds
              (list_to_set (astype_str <$> reg_ids)) g Hall) as [ids Hrun].
  rewrite (bind_eq_Ok _ _ _ _ _ Hrun). by eexists.
Qed.

End Extrapolation.

(** ** [assign_ids] *)

Lemma b32_alphabet_in_default s :
  drawn_from b32_alphabet s -> drawn_from default_chars s.
Proof.
  unfold drawn_from. intros H. eapply Forall_impl; [exact H|]. intros c Hc.
  assert (Hall : Forall (fun c => c ∈ list_ascii_of_string default_chars)
                        (list_ascii_of_string b32_alphabet)).
  { apply (bool_decide_unpack _). vm_compute. exact I. }
  rewrite Forall_forall in Hall. by apply Hall.
Qed.

Lemma assign_ids_stable df scaffold_col id_col length fuel g scaffolds :
  column df scaffold_col = Some scaffolds ->
  assign_ids df scaffold_col id_col "stable" length fuel g
  = Ok (set_column df id_col
          (Some <$> ((fun s => _hash_b32 (scaffold_key s) length)
                       <$> scaffolds)),
        g).
Proof.
  intros Hcol. unfold assign_ids. rewrite Hcol.
  rewrite (bind_eq_Ok _ _ _ _ _
             (progress_apply_pure _ _ scaffolds g
                (fun x g => make_scaffold_id_stable x length default_chars g))).
  by destruct (decide ("stable" = "random")).
Qed.

Lemma first_pass_random length scaffolds g :
  exists ids g1,
    progress_apply (fun s => make_scaffold_id s "random" length default_chars)
      scaffolds g = Ok (ids, g1) /\
    Forall (generated length) ids /\
    List.length ids = List.length scaffolds.
Proof.
  apply progress_apply_total. intros x g0.
  rewrite make_scaffold_id_random. apply id_generator_generated.
Qed.

Lemma assign_ids_random_Ok df scaffold_col id_col length fuel g scaffolds
    out g' :
  column df scaffold_col = Some scaffolds ->
  assign_ids df scaffold_col id_col "random" length fuel g = Ok (out, g') ->
  exists ids,
    out = set_column df id_col (Some <$> ids) /\
    List.length ids = List.length scaffolds /\
    NoDup ids /\ Forall (generated length) ids.
Proof.
  intros Hcol H. unfold assign_ids in H. rewrite Hcol in H.
  destruct (first_pass_random length scaffolds g)
    as (xs & g1 & Hfirst & Hgen & Hlen).
  rewrite (bind_eq_Ok _ _ _ _ _ Hfirst) in H.
  destruct (decide ("random" = "random")); [|done].
  inv_bind H. inv_bind Hrun. destruct a0 as [ys seen]. inv_ret Hrun.
  inv_ret H. simpl.
  apply progress_apply_with_steps in Hrun0.
  pose proof (steps_length _ _ _ _ _ _ _ Hrun0) as Hlen'.
  apply steps_ensure_unique in Hrun0 as (Hnd & _ & _ & Hall).
  exists ys. split; [done|]. split; [congruence|]. split; [done | auto].
Qed.

Lemma ensure_unique_outcome fuel length x seen g :
  ensure_unique fuel length x seen g = Looping \/
  exists r g', ensure_unique fuel length x seen g = Ok (r, g').
Proof.
  unfold ensure_unique. destruct (decide (x ∈ seen)).
  - destruct (regenerate_outcome fuel length seen x g) as [H|(y & g' & H)].
    + left. by apply bind_eq_Looping.
    + right. rewrite (bind_eq_Ok _ _ _ _ _ H). by eexists _, _.
  - right. by eexists _, _.
Qed.

Lemma progress_apply_with_outcome {A B}
    (f : A -> gset string -> M (B * gset string)) xs s g :
  (forall x s g, f x s g = Looping \/ exists r g', f x s g = Ok (r, g')) ->
  progress_apply_with f xs s g = Looping \/
  exists r g', progress_apply_with f xs s g = Ok (r, g').
Proof.
  intros Hf. revert s g. induction xs as [|x xs IH]; intros s g; simpl.
  - right. by eexists _, _.
  - destruct (Hf x s g) as [H|(r & g1 & H)].
    + left. by apply bind_eq_Looping.
    + rewrite (bind_eq_Ok _ _ _ _ _ H).
      destruct (IH r.2 g1) as [H'|(r' & g2 & H')].
      * left. by apply bind_eq_Looping.
      * right. rewrite (bind_eq_Ok _ _ _ _ _ H'). by eexists _, _.
Qed.

Lemma assign_ids_random_outcome df scaffold_col id_col length fuel g scaffolds :
  column df scaffold_col = Some scaffolds ->
  assign_ids df scaffold_col id_col "random" length fuel g = Looping \/
  exists out g',
    assign_ids df scaffold_col id_col "random" length fuel g = Ok (out, g').
Proof.
  intros Hcol. unfold assign_ids. rewrite Hcol.
  destruct (first_pass_random length scaffolds g) as (xs & g1 & Hfirst & _).
  rewrite (bind_eq_Ok _ _ _ _ _ Hfirst).
  destruct (decide ("random" = "random")); [|done].
  destruct (progress_apply_with_outcome (ensure_unique fuel length) xs ∅ g1
              (ensure_unique_outcome fuel length)) as [H|(r & g2 & H)].
  - left. apply bind_eq_Looping. by apply bind_eq_Looping.
  - right. erewrite bind_eq_Ok; [by eexists _, _|].
    by rewrite (bind_eq_Ok _ _ _ _ _ H).
Qed.

(** More patience never changes a frame already returned. *)
Lemma progress_apply_with_mono {A B}
    (f f' : A -> gset string -> M (B * gset string)) xs s g r :
  (forall x s g r, f x s g = Ok r -> f' x s g = Ok r) ->
  progress_apply_with f xs s g = Ok r -> progress_apply_with f' xs s g = Ok r.
Proof.
  intros Hf. revert s g r. induction xs as [|x xs IH]; intros s g r H;
    simpl in *; [done|].
  inv_bind H. inv_bind H.
  rewrite (bind_eq_Ok _ _ _ _ _ (Hf _ _ _ _ Hrun)).
  by rewrite (bind_eq_Ok _ _ _ _ _ (IH _ _ _ Hrun0)).
Qed.

Lemma ensure_unique_mono fuel extra length x seen g r :
  ensure_unique fuel length x seen g = Ok r ->
  ensure_unique (fuel + extra) length x seen g = Ok r.
Proof.
  unfold ensure_unique. destruct (decide (x ∈ seen)); [|done].
  intros H. inv_bind H.
  by rewrite (bind_eq_Ok _ _ _ _ _ (regenerate_mono _ extra _ _ _ _ _ Hrun)).
Qed.

Lemma assign_ids_mono df scaffold_col id_col strategy length fuel extra g r :
  assign_ids df scaffold_col id_col strategy length fuel g = Ok r ->
  assign_ids df scaffold_col id_col strategy length (fuel + extra) g = Ok r.
Proof.
  unfold assign_ids. destruct (column df scaffold_col); [|done].
  intros H. inv_bind H. rewrite (bind_eq_Ok _ _ _ _ _ Hrun).
  destruct (decide (strategy = "random")); [|done].
  inv_bind H. inv_bind Hrun0.
  erewrite bind_eq_Ok; [exact H|].
  erewrite bind_eq_Ok; [exact Hrun0|].
  eapply progress_apply_with_mono; [|exact Hrun1].
  intros. by apply ensure_unique_mono.
Qed.

Lemma one_char_ids_bound (ids : list string) :
  NoDup ids -> Forall (generated 1) ids -> (List.length ids <= 36)%nat.
Proof.
  intros Hnd Hgen.
  change 36%nat with (List.length one_char_ids).
  apply submseteq_length, NoDup_submseteq; [done|].
  intros x Hx. rewrite Forall_forall in Hgen. by apply generated_one_char, Hgen.
Qed.

(** * The claims *)

(** C1. For every supplied registry and every row of the new frame whose key
    the registry binds, [extrapolate_ids] assigns that row exactly the
    identifier the registry binds to the key: the closure returns it at once,
    whatever the strategy, the captured set and the random source, and the
    lookup is only read; every frame the call returns carries it in that
    row (and, for a key the registry lists more than once, one of the
    identifiers listed for it); the call returns when every row is bound or
    the strategy is ['stable']. With the registry
    {"c1ccccc1": "AB12CD"} and one new row "c1ccccc1" the row receives
    exactly "AB12CD". *)
Theorem extrapolate_ids_preserves_registry
    (existing_df new_df : DataFrame) (scaffold_col id_col strategy_new : string)
    (length : Z) (reg_keys reg_ids scaffolds : list cell) :
  column existing_df scaffold_col = Some reg_keys ->
  column existing_df id_col = Some reg_ids ->
  column new_df scaffold_col = Some scaffolds ->
  (forall k i fuel used g,
      registry_binds reg_keys reg_ids k i ->
      get_or_make_id (dict_zip reg_keys reg_ids) strategy_new length fuel
        k used g = Ok ((i, used), g)) /\
  (forall fuel g out g',
      extrapolate_ids existing_df new_df scaffold_col id_col strategy_new
        length fuel g = Ok (out, g') ->
      exists ids,
        column out id_col = Some ids /\
        List.length ids = List.length scaffolds /\
        (forall n k i,
            scaffolds !! n = Some k -> registry_binds reg_keys reg_ids k i ->
            ids !! n = Some i) /\
        (forall n k,
            scaffolds !! n = Some k -> k ∈ (zip reg_keys reg_ids).*1 ->
            exists i, ids !! n = Some i /\ (k, i) ∈ zip reg_keys reg_ids)) /\
  (Forall (fun k => exists i, registry_binds reg_keys reg_ids k i) scaffolds ->
   forall fuel g,
     exists out, extrapolate_ids existing_df new_df scaffold_col id_col
                   strategy_new length fuel g = Ok (out, g)) /\
  (forall fuel g,
     exists out, extrapolate_ids existing_df new_df scaffold_col id_col
                   "stable" length fuel g = Ok (out, g)) /\
  (forall fuel g,
     extrapolate_ids benzene_registry [("scaffold_smiles", [Some "c1ccccc1"])]
       "scaffold_smiles" "scaffold_id" strategy_new length fuel g
     = Ok ([("scaffold_smiles", [Some "c1ccccc1"]);
            ("scaffold_id", [Some "AB12CD"])], g)).
Proof.
  intros Hkeys Hids Hnew. repeat apply conj.
  - intros k i fuel used g Hb.
    apply get_or_make_id_known, dict_zip_binds, Hb.
  - intros fuel g out g' Hrun.
    destruct (extrapolate_ids_Ok _ _ _ _ _ _ _ Hkeys Hids Hnew _ _ _ _ _ _ Hrun)
      as (ids & s' & Hsteps & _ & Hcol & Hlen).
    exists ids. split; [done|]. split; [done|]. split.
    + intros n k i Hn Hb. eapply steps_known; eauto using dict_zip_binds.
    + intros n k Hn Hk.
      destruct (dict_zip_present _ _ _ Hk) as (i & Hi & Hin).
      exists i. split; [|done]. eapply steps_known; eauto.
  - intros Hall fuel g.
    eapply extrapolate_ids_all_known; eauto.
    eapply Forall_impl; [exact Hall|]. intros k [i Hb]. exists i.
    by apply dict_zip_binds.
  - intros fuel g. eexists.
    by eapply extrapolate_ids_stable.
  - intros fuel g.
    rewrite (extrapolate_ids_run benzene_registry
               [("scaffold_smiles", [Some "c1ccccc1"])] "scaffold_smiles"
               "scaffold_id" [Some "c1ccccc1"] [Some "AB12CD"]
               [Some "c1ccccc1"] eq_refl eq_refl eq_refl).
    assert (Hk : dict_zip [Some "c1ccccc1"] [Some "AB12CD"] !! Some "c1ccccc1"
                 = Some (Some "AB12CD")) by (vm_compute; reflexivity).
    simpl progress_apply_with.
    rewrite (bind_eq_Ok _ _ _ _ _
               (bind_eq_Ok _ _ _ _ _
                  (get_or_make_id_known _ strategy_new length fuel _ _ _ g
                     Hk))).
    reflexivity.
Qed.

Lemma extrapolate_ids_preserves_registry_witness :
  extrapolate_ids benzene_registry two_rows "scaffold_smiles" "scaffold_id"
    "random" 8 1 slow_source
  = Ok ([("scaffold_smiles", [Some "c1ccccc1"; Some "c1ccncc1"]);
         ("scaffold_id", [Some "AB12CD"; Some "AAAAAAAA"])],
        {| draws := draws slow_source; cursor := 8 |}) /\
  exists ids,
    column [("scaffold_smiles", [Some "c1ccccc1"; Some "c1ccncc1"]);
            ("scaffold_id", [Some "AB12CD"; Some "AAAAAAAA"])] "scaffold_id"
    = Some ids /\
    ids !! 0%nat = Some (Some "AB12CD").
Proof.
  assert (Hrun : extrapolate_ids benzene_registry two_rows "scaffold_smiles"
                   "scaffold_id" "random" 8 1 slow_source
                 = Ok ([("scaffold_smiles", [Some "c1ccccc1"; Some "c1ccncc1"]);
                        ("scaffold_id", [Some "AB12CD"; Some "AAAAAAAA"])],
                       {| draws := draws slow_source; cursor := 8 |}))
    by (vm_compute; reflexivity).
  split; [exact Hrun|].
  destruct (extrapolate_ids_preserves_registry benzene_registry two_rows
              "scaffold_smiles" "scaffold_id" "random" 8
              [Some "c1ccccc1"] [Some "AB12CD"]
              [Some "c1ccccc1"; Some "c1ccncc1"] eq_refl eq_refl eq_refl)
    as (_ & Hcall & _).
  destruct (Hcall _ _ _ _ Hrun) as (ids & Hcol & _ & Hrows & _).
  exists ids. split; [exact Hcol|].
  apply (Hrows 0%nat (Some "c1ccccc1")); [reflexivity|].
  split; [left|].
  intros i' Hin. apply list_elem_of_singleton in Hin. congruence.
Defined.

(** C2. [make_scaffold_id] with strategy ['stable'] is a function of the key
    and the length alone: it returns the hash of the key whatever the random
    source and the alphabet, draws nothing, and two calls give the same
    answers in either order. For the keys "c1ccccc1", "c1ccccc1",
    "NCCc1ccccc1" with length 6, rows 1 and 2 receive the same identifier,
    row 3 another one, and every run gives these three identifiers. *)
Theorem stable_ids_deterministic :
  (forall scaffold length chars g,
      make_scaffold_id scaffold "stable" length chars g
      = Ok (_hash_b32 (scaffold_key scaffold) length, g)) /\
  (forall k1 k2 length chars g,
      (a <- make_scaffold_id k1 "stable" length chars;;
       b <- make_scaffold_id k2 "stable" length chars;;
       ret (a, b)) g
      = (b <- make_scaffold_id k2 "stable" length chars;;
         a <- make_scaffold_id k1 "stable" length chars;;
         ret (a, b)) g) /\
  (forall fuel g,
      assign_ids worked_example "scaffold_smiles" "scaffold_id" "stable" 6
        fuel g
      = Ok ([("scaffold_smiles",
              [Some "c1ccccc1"; Some "c1ccccc1"; Some "NCCc1ccccc1"]);
             ("scaffold_id",
              [Some "QREAIM"; Some "QREAIM"; Some "6QLIIS"])], g)) /\
  "QREAIM" <> "6QLIIS".
Proof.
  repeat apply conj.
  - intros. apply make_scaffold_id_stable.
  - intros k1 k2 length chars g.
    rewrite (bind_eq_Ok _ _ _ _ _ (make_scaffold_id_stable k1 length chars g)).
    rewrite (bind_eq_Ok _ _ _ _ _ (make_scaffold_id_stable k2 length chars g)).
    rewrite (bind_eq_Ok _ _ _ _ _ (make_scaffold_id_stable k2 length chars g)).
    rewrite (bind_eq_Ok _ _ _ _ _ (make_scaffold_id_stable k1 length chars g)).
    reflexivity.
  - intros fuel g.
    rewrite (assign_ids_stable worked_example "scaffold_smiles" "scaffold_id"
               6 fuel g _ eq_refl).
    vm_compute. reflexivity.
  - discriminate.
Qed.

(** C3 (amended). Every frame that [assign_ids] returns under ['random']
    carries one identifier per row and no identifier twice; nothing is
    raised on the way, and a frame once returned is returned under any
    longer observation. The call need not return: the retry loop has no
    bound. *)
Theorem assign_ids_random_unique
    (df : DataFrame) (scaffold_col id_col : string) (length : Z) (fuel : nat)
    (g : RandomState) (scaffolds : list cell) (out : DataFrame)
    (g' : RandomState) :
  column df scaffold_col = Some scaffolds ->
  assign_ids df scaffold_col id_col "random" length fuel g = Ok (out, g') ->
  (exists ids : list string,
      column out id_col = Some (Some <$> ids) /\
      List.length ids = List.length scaffolds /\
      NoDup ids /\
      forall n m x y,
        n <> m -> ids !! n = Some x -> ids !! m = Some y -> x <> y) /\
  (forall extra,
      assign_ids df scaffold_col id_col "random" length (fuel + extra) g
      = Ok (out, g')) /\
  (forall fuel' g0 e,
      assign_ids df scaffold_col id_col "random" length fuel' g0 <> Raise e).
Proof.
  intros Hcol Hrun. split; [|split].
  - destruct (assign_ids_random_Ok _ _ _ _ _ _ _ _ _ Hcol Hrun)
      as (ids & -> & Hlen & Hnd & _).
    exists ids. split; [apply column_set_column|]. split; [done|].
    split; [done|].
    intros n m x y Hnm Hn Hm ->. apply Hnm.
    eapply NoDup_lookup; eauto.
  - intros extra. by apply assign_ids_mono.
  - intros fuel' g0 e.
    destruct (assign_ids_random_outcome df scaffold_col id_col length fuel' g0
                scaffolds Hcol) as [H|(o & g1 & H)]; by rewrite H.
Qed.

Lemma assign_ids_random_unique_witness :
  assign_ids worked_example "scaffold_smiles" "scaffold_id" "random" 8 1
    slow_source
  = Ok ([("scaffold_smiles",
          [Some "c1ccccc1"; Some "c1ccccc1"; Some "NCCc1ccccc1"]);
         ("scaffold_id",
          [Some "AAAAAAAA"; Some "BBBBBBBB"; Some "CCCCCCCC"])],
        {| draws := draws slow_source; cursor := 40 |}) /\
  exists ids : list string,
    column [("scaffold_smiles",
             [Some "c1ccccc1"; Some "c1ccccc1"; Some "NCCc1ccccc1"]);
            ("scaffold_id",
             [Some "AAAAAAAA"; Some "BBBBBBBB"; Some "CCCCCCCC"])]
      "scaffold_id" = Some (Some <$> ids) /\
    NoDup ids.
Proof.
  assert (Hrun : assign_ids worked_example "scaffold_smiles" "scaffold_id"
                   "random" 8 1 slow_source
                 = Ok ([("scaffold_smiles",
                         [Some "c1ccccc1"; Some "c1ccccc1";
                          Some "NCCc1ccccc1"]);
                        ("scaffold_id",
                         [Some "AAAAAAAA"; Some "BBBBBBBB";
                          Some "CCCCCCCC"])],
                       {| draws := draws slow_source; cursor := 40 |}))
    by (vm_compute; reflexivity).
  split; [exact Hrun|].
  destruct (assign_ids_random_unique worked_example "scaffold_smiles"
              "scaffold_id" 8 1 slow_source
              [Some "c1ccccc1"; Some "c1ccccc1"; Some "NCCc1ccccc1"]
              _ _ eq_refl Hrun) as [(ids & Hcol & _ & Hnd & _) _].
  exists ids. split; [exact Hcol | exact Hnd].
Defined.

(** C3 as stated fails where the identifiers of the requested length run
    out: with 37 rows and length 1 the call never returns a frame, whatever
    the random source; the retry loop of [ensure_unique] runs for ever. *)
Lemma assign_ids_random_37_rows_never_returns :
  (~ exists fuel g out g',
       assign_ids frame_37 "scaffold_smiles" "scaffold_id" "random" 1 fuel g
       = Ok (out, g')) /\
  (forall fuel g,
      assign_ids frame_37 "scaffold_smiles" "scaffold_id" "random" 1 fuel g
      = Looping).
Proof.
  assert (Hnever : ~ exists fuel g out g',
             assign_ids frame_37 "scaffold_smiles" "scaffold_id" "random" 1
               fuel g = Ok (out, g')).
  { intros (fuel & g & out & g' & H).
    apply (assign_ids_random_Ok frame_37 _ _ _ _ _
             (replicate 37 (Some "c1ccccc1"))) in H
      as (ids & _ & Hlen & Hnd & Hgen); [|reflexivity].
    pose proof (one_char_ids_bound ids Hnd Hgen) as Hle.
    rewrite Hlen, length_replicate in Hle. lia. }
  split; [exact Hnever|].
  intros fuel g.
  destruct (assign_ids_random_outcome frame_37 "scaffold_smiles" "scaffold_id"
              1 fuel g (replicate 37 (Some "c1ccccc1")) eq_refl)
    as [H|(out & g' & H)]; [exact H|].
  exfalso. apply Hnever. by exists fuel, g, out, g'.
Qed.

(** C4 (amended). Under ['random'], every identifier [extrapolate_ids] mints
    for a scaffold the lookup does not hold is absent from the identifiers
    of the registry and differs from every other identifier minted in the
    call. Under ['stable'] the call always returns and the identifier minted
    is the hash of the stripped key, checked against nothing. *)
Theorem extrapolate_ids_minted_identifiers
    (existing_df new_df : DataFrame) (scaffold_col id_col : string)
    (length : Z) (fuel : nat) (g : RandomState)
    (reg_keys reg_ids scaffolds : list cell) :
  column existing_df scaffold_col = Some reg_keys ->
  column existing_df id_col = Some reg_ids ->
  column new_df scaffold_col = Some scaffolds ->
  (forall out g',
      extrapolate_ids existing_df new_df scaffold_col id_col "random"
        length fuel g = Ok (out, g') ->
      exists ids,
        column out id_col = Some ids /\
        List.length ids = List.length scaffolds /\
        NoDup (minted (dict_zip reg_keys reg_ids) scaffolds ids) /\
        (forall c,
            c ∈ minted (dict_zip reg_keys reg_ids) scaffolds ids ->
            (c ∉ reg_ids) /\
            exists new_id,
              c = Some new_id /\
              new_id ∉ (list_to_set (astype_str <$> reg_ids) : gset string)) /\
        (forall n m k1 k2 y1 y2,
            n <> m ->
            scaffolds !! n = Some k1 -> ids !! n = Some y1 ->
            dict_zip reg_keys reg_ids !! k1 = None ->
            scaffolds !! m = Some k2 -> ids !! m = Some y2 ->
            dict_zip reg_keys reg_ids !! k2 = None ->
            y1 <> y2)) /\
  extrapolate_ids existing_df new_df scaffold_col id_col "stable" length fuel g
  = Ok (set_column new_df id_col
          (stable_cell (dict_zip reg_keys reg_ids) length <$> scaffolds), g).
Proof.
  intros Hkeys Hids Hnew. split.
  - intros out g' Hrun.
    destruct (extrapolate_ids_Ok _ _ _ _ _ _ _ Hkeys Hids Hnew _ _ _ _ _ _ Hrun)
      as (ids & s' & Hsteps & _ & Hcol & Hlen).
    apply steps_random_fresh in Hsteps as [Hnd Hfresh].
    exists ids. split; [done|]. split; [done|]. split; [done|]. split.
    + intros c Hc. apply Hfresh in Hc as (new_id & -> & Hnot & _).
      split; [|by exists new_id].
      intros Hin. apply Hnot, elem_of_list_to_set, list_elem_of_fmap.
      by exists (Some new_id).
    + intros n m k1 k2 y1 y2. by apply minted_distinct.
  - by apply extrapolate_ids_stable.
Qed.

Lemma extrapolate_ids_minted_identifiers_witness :
  extrapolate_ids benzene_registry two_rows "scaffold_smiles" "scaffold_id"
    "random" 8 1 slow_source
  = Ok ([("scaffold_smiles", [Some "c1ccccc1"; Some "c1ccncc1"]);
         ("scaffold_id", [Some "AB12CD"; Some "AAAAAAAA"])],
        {| draws := draws slow_source; cursor := 8 |}) /\
  exists ids,
    column [("scaffold_smiles", [Some "c1ccccc1"; Some "c1ccncc1"]);
            ("scaffold_id", [Some "AB12CD"; Some "AAAAAAAA"])] "scaffold_id"
    = Some ids /\
    NoDup (minted (dict_zip [Some "c1ccccc1"] [Some "AB12CD"])
             [Some "c1ccccc1"; Some "c1ccncc1"] ids).
Proof.
  assert (Hrun : extrapolate_ids benzene_registry two_rows "scaffold_smiles"
                   "scaffold_id" "random" 8 1 slow_source
                 = Ok ([("scaffold_smiles", [Some "c1ccccc1"; Some "c1ccncc1"]);
                        ("scaffold_id", [Some "AB12CD"; Some "AAAAAAAA"])],
                       {| draws := draws slow_source; cursor := 8 |}))
    by (vm_compute; reflexivity).
  split; [exact Hrun|].
  destruct (extrapolate_ids_minted_identifiers benzene_registry two_rows
              "scaffold_smiles" "scaffold_id" 8 1 slow_source
              [Some "c1ccccc1"] [Some "AB12CD"]
              [Some "c1ccccc1"; Some "c1ccncc1"] eq_refl eq_refl eq_refl)
    as [Hrandom _].
  destruct (Hrandom _ _ Hrun) as (ids & Hcol & _ & Hnd & _).
  exists ids. split; [exact Hcol | exact Hnd].
Defined.

(** C4 as stated fails under ['stable']: when the registry already holds
    "N2CYWJ" for another scaffold, the unseen "c1ccncc1" is minted the same
    "N2CYWJ"; and two unseen rows with one scaffold are minted one
    identifier. *)
Lemma stable_minted_identifier_in_registry :
  dict_zip [Some "c1ccccc1"] [Some "N2CYWJ"] !! Some "c1ccncc1" = None /\
  extrapolate_ids
    [("scaffold_smiles", [Some "c1ccccc1"]); ("scaffold_id", [Some "N2CYWJ"])]
    [("scaffold_smiles", [Some "c1ccncc1"; Some "c1ccncc1"])]
    "scaffold_smiles" "scaffold_id" "stable" 6 0 slow_source
  = Ok ([("scaffold_smiles", [Some "c1ccncc1"; Some "c1ccncc1"]);
         ("scaffold_id", [Some "N2CYWJ"; Some "N2CYWJ"])], slow_source) /\
  Some "N2CYWJ" ∈ [Some "N2CYWJ"].
Proof.
  split; [vm_compute; reflexivity|]. split; [vm_compute; reflexivity|]. left.
Qed.

(** C5 (amended). When a scaffold the lookup does not hold occurs in several
    rows of one call: under ['stable'] the call returns and every occurrence
    receives the same identifier, the hash of the stripped key, computed
    anew at each row; under ['random'] every occurrence is minted an
    identifier of its own, different from the ones minted before. The
    lookup itself is never extended. *)
Theorem extrapolate_ids_repeated_unseen_key
    (existing_df new_df : DataFrame) (scaffold_col id_col : string)
    (length : Z) (fuel : nat) (g : RandomState)
    (reg_keys reg_ids scaffolds : list cell) :
  column existing_df scaffold_col = Some reg_keys ->
  column existing_df id_col = Some reg_ids ->
  column new_df scaffold_col = Some scaffolds ->
  (exists ids,
      extrapolate_ids existing_df new_df scaffold_col id_col "stable"
        length fuel g = Ok (set_column new_df id_col ids, g) /\
      forall n m k,
        scaffolds !! n = Some k -> scaffolds !! m = Some k ->
        dict_zip reg_keys reg_ids !! k = None ->
        ids !! n = Some (Some (_hash_b32 (scaffold_key k) length)) /\
        ids !! m = ids !! n) /\
  (forall out g',
      extrapolate_ids existing_df new_df scaffold_col id_col "random"
        length fuel g = Ok (out, g') ->
      exists ids,
        column out id_col = Some ids /\
        forall n m k y1 y2,
          n <> m ->
          scaffolds !! n = Some k -> scaffolds !! m = Some k ->
          dict_zip reg_keys reg_ids !! k = None ->
          ids !! n = Some y1 -> ids !! m = Some y2 ->
          y1 <> y2).
Proof.
  intros Hkeys Hids Hnew. split.
  - exists (stable_cell (dict_zip reg_keys reg_ids) length <$> scaffolds).
    split; [by apply extrapolate_ids_stable|].
    intros n m k Hn Hm Hk.
    rewrite !list_lookup_fmap, Hn, Hm. simpl.
    unfold stable_cell. by rewrite Hk.
  - intros out g' Hrun.
    destruct (extrapolate_ids_Ok _ _ _ _ _ _ _ Hkeys Hids Hnew _ _ _ _ _ _ Hrun)
      as (ids & s' & Hsteps & _ & Hcol & _).
    apply steps_random_fresh in Hsteps as [Hnd _].
    exists ids. split; [done|].
    intros n m k y1 y2 Hnm Hn Hm Hk Hy1 Hy2.
    by eapply (minted_distinct _ _ _ n m k k).
Qed.

Lemma extrapolate_ids_repeated_unseen_key_witness :
  exists ids,
    extrapolate_ids benzene_registry
      [("scaffold_smiles", [Some "c1ccncc1"; Some "c1ccncc1"])]
      "scaffold_smiles" "scaffold_id" "stable" 6 0 slow_source
    = Ok (set_column [("scaffold_smiles", [Some "c1ccncc1"; Some "c1ccncc1"])]
            "scaffold_id" ids, slow_source) /\
    ids !! 0%nat = Some (Some (_hash_b32 "c1ccncc1" 6)) /\
    ids !! 1%nat = ids !! 0%nat.
Proof.
  destruct (extrapolate_ids_repeated_unseen_key benzene_registry
              [("scaffold_smiles", [Some "c1ccncc1"; Some "c1ccncc1"])]
              "scaffold_smiles" "scaffold_id" 6 0 slow_source
              [Some "c1ccccc1"] [Some "AB12CD"]
              [Some "c1ccncc1"; Some "c1ccncc1"] eq_refl eq_refl eq_refl)
    as [(ids & Hrun & Hsame) _].
  exists ids. split; [exact Hrun|].
  apply (Hsame 0%nat 1%nat (Some "c1ccncc1")); [reflexivity | reflexivity |].
  vm_compute. reflexivity.
Defined.

(** C5 as stated fails under ['random']: the second occurrence of the unseen
    "c1ccncc1" does not reuse "AAAAAAAA", minted at the first; when the
    source delivers "AAAAAAAA" again the retry loop replaces it. *)
Lemma random_repeated_key_minted_twice :
  dict_zip [Some "c1ccccc1"] [Some "AB12CD"] !! Some "c1ccncc1" = None /\
  extrapolate_ids benzene_registry
    [("scaffold_smiles", [Some "c1ccncc1"; Some "c1ccncc1"])]
    "scaffold_smiles" "scaffold_id" "random" 8 1 slow_source
  = Ok ([("scaffold_smiles", [Some "c1ccncc1"; Some "c1ccncc1"]);
         ("scaffold_id", [Some "AAAAAAAA"; Some "BBBBBBBB"])],
        {| draws := draws slow_source; cursor := 24 |}) /\
  "AAAAAAAA" <> "BBBBBBBB".
Proof.
  split; [vm_compute; reflexivity|]. split; [vm_compute; reflexivity|].
  discriminate.
Qed.

(** C6 (the code departs from it). Stable identifiers of a missing key and of
    the literal "NA_SCAFFOLD" coincide for every length, and so do those of
    the empty string and of a whitespace-only string; but the empty string
    is hashed as such and not as the sentinel: at length 8 it receives
    "3I42H3S6" where the sentinel receives "YJN2E4GT". *)
Theorem blank_key_is_not_the_sentinel :
  (forall length chars g,
      make_scaffold_id None "stable" length chars g
      = make_scaffold_id (Some "NA_SCAFFOLD") "stable" length chars g) /\
  (forall length chars g,
      make_scaffold_id (Some EmptyString) "stable" length chars g
      = make_scaffold_id (Some "   ") "stable" length chars g) /\
  (forall chars g,
      make_scaffold_id (Some EmptyString) "stable" 8 chars g
      = Ok ("3I42H3S6", g) /\
      make_scaffold_id (Some "   ") "stable" 8 chars g
      = Ok ("3I42H3S6", g) /\
      make_scaffold_id None "stable" 8 chars g
      = Ok ("YJN2E4GT", g) /\
      make_scaffold_id (Some "NA_SCAFFOLD") "stable" 8 chars g
      = Ok ("YJN2E4GT", g)) /\
  "3I42H3S6" <> "YJN2E4GT".
Proof.
  split; [|split; [|split]].
  - intros. rewrite !make_scaffold_id_stable. reflexivity.
  - intros. rewrite !make_scaffold_id_stable. reflexivity.
  - intros. rewrite !make_scaffold_id_stable.
    repeat split; vm_compute; reflexivity.
  - discriminate.
Qed.

(** C7 (amended). [get_or_make_id] looks the row's key up as it stands,
    neither stripped nor replaced by the sentinel. Whenever that raw key is
    in the lookup, the identifier the lookup holds is returned, nothing is
    drawn and the captured set is left as it was. A raw key that is not in
    the lookup is minted an identifier, which is added to the captured set,
    even when its stripped form or the sentinel is a key of the lookup. *)
Theorem get_or_make_id_looks_up_raw_key
    (mapping : gmap cell cell) (strategy_new : string) (length : Z)
    (fuel : nat) (scaffold : cell) (existing_ids : gset string)
    (g : RandomState) :
  (forall i,
      mapping !! scaffold = Some i ->
      get_or_make_id mapping strategy_new length fuel scaffold existing_ids g
      = Ok ((i, existing_ids), g)) /\
  (mapping !! scaffold = None ->
   forall y used' g',
     get_or_make_id mapping strategy_new length fuel scaffold existing_ids g
     = Ok ((y, used'), g') ->
     exists new_id,
       y = Some new_id /\ used' = {[new_id]} ∪ existing_ids /\
       (strategy_new = "stable" ->
        new_id = _hash_b32 (scaffold_key scaffold) length /\ g' = g)).
Proof.
  split.
  - intros i Hi. by apply get_or_make_id_known.
  - intros Hnone y used' g' H.
    destruct (decide (strategy_new = "stable")) as [->|Hne].
    + rewrite get_or_make_id_stable in H by done. simplify_eq.
      eexists. by repeat split.
    + unfold get_or_make_id in H. rewrite Hnone in H.
      inv_bind H. inv_bind H. inv_ret H.
      eexists. by repeat split.
Qed.

Lemma get_or_make_id_looks_up_raw_key_witness :
  get_or_make_id (dict_zip [Some "c1ccccc1"] [Some "AB12CD"]) "random" 8 0
    (Some "c1ccccc1") {["AB12CD"]} slow_source
  = Ok ((Some "AB12CD", {["AB12CD"]}), slow_source).
Proof.
  apply (get_or_make_id_looks_up_raw_key
           (dict_zip [Some "c1ccccc1"] [Some "AB12CD"]) "random" 8 0
           (Some "c1ccccc1") {["AB12CD"]} slow_source).
  vm_compute. reflexivity.
Defined.

(** C7 as stated fails: the padded " c1ccccc1 " strips to the registry key
    "c1ccccc1" but is not found; it is minted "QREAIM", which enters the
    captured set. A missing key is not found under the sentinel either. *)
Lemma padded_key_is_minted_anew :
  dict_zip [Some "c1ccccc1"] [Some "AB12CD"]
    !! Some (scaffold_key (Some " c1ccccc1 ")) = Some (Some "AB12CD") /\
  get_or_make_id (dict_zip [Some "c1ccccc1"] [Some "AB12CD"]) "stable" 6 0
    (Some " c1ccccc1 ") {["AB12CD"]} slow_source
  = Ok ((Some "QREAIM", {["QREAIM"]} ∪ {["AB12CD"]}), slow_source) /\
  ({["QREAIM"]} ∪ {["AB12CD"]} : gset string) <> {["AB12CD"]} /\
  extrapolate_ids benzene_registry [("scaffold_smiles", [Some " c1ccccc1 "])]
    "scaffold_smiles" "scaffold_id" "stable" 6 0 slow_source
  = Ok ([("scaffold_smiles", [Some " c1ccccc1 "]);
         ("scaffold_id", [Some "QREAIM"])], slow_source) /\
  extrapolate_ids
    [("scaffold_smiles", [Some "NA_SCAFFOLD"]);
     ("scaffold_id", [Some "ZZZZZZ"])]
    [("scaffold_smiles", [None])]
    "scaffold_smiles" "scaffold_id" "stable" 6 0 slow_source
  = Ok ([("scaffold_smiles", [None]); ("scaffold_id", [Some "YJN2E4"])],
        slow_source).
Proof.
  split; [vm_compute; reflexivity|]. split; [vm_compute; reflexivity|].
  split; [|split; vm_compute; reflexivity].
  intros Heq.
  assert (Hin : "QREAIM" ∈ ({["AB12CD"]} : gset string))
    by (rewrite <- Heq; set_solver).
  apply elem_of_singleton in Hin. discriminate.
Qed.

(** C8 (amended). For a frame that has the key column and a strategy outside
    ['stable'] and ['random'], [assign_ids] raises the strategy error at the
    first row and returns no frame when there is at least one row; on a frame
    without rows no row is visited, nothing is raised and the frame comes
    back with an empty identifier column. *)
Theorem assign_ids_unknown_strategy
    (df : DataFrame) (scaffold_col id_col strategy : string) (length : Z)
    (fuel : nat) (g : RandomState) (scaffolds : list cell) :
  strategy <> "stable" -> strategy <> "random" ->
  column df scaffold_col = Some scaffolds ->
  assign_ids df scaffold_col id_col strategy length fuel g
  = match scaffolds with
    | [] => Ok (set_column df id_col [], g)
    | _ :: _ => Raise ValueError_strategy
    end.
Proof.
  intros Hs Hr Hcol. unfold assign_ids. rewrite Hcol.
  destruct scaffolds as [|s rest].
  - simpl. unfold bind, ret. by destruct (decide (strategy = "random")).
  - apply bind_eq_Raise, progress_apply_raise.
    by apply make_scaffold_id_unknown.
Qed.

Lemma assign_ids_unknown_strategy_witness :
  assign_ids worked_example "scaffold_smiles" "scaffold_id" "md5" 8 0
    slow_source = Raise ValueError_strategy.
Proof.
  apply (assign_ids_unknown_strategy worked_example "scaffold_smiles"
           "scaffold_id" "md5" 8 0 slow_source
           [Some "c1ccccc1"; Some "c1ccccc1"; Some "NCCc1ccccc1"]);
    [discriminate | discriminate | reflexivity].
Defined.

(** C8 as stated fails on a frame without rows: the call returns. *)
Lemma assign_ids_unknown_strategy_empty_frame :
  assign_ids [("scaffold_smiles", [])] "scaffold_smiles" "scaffold_id" "md5"
    8 0 slow_source
  = Ok ([("scaffold_smiles", []); ("scaffold_id", [])], slow_source) /\
  assign_ids [("scaffold_smiles", [])] "scaffold_smiles" "scaffold_id" "md5"
    8 0 slow_source
  <> Raise ValueError_strategy.
Proof. split; [reflexivity | discriminate]. Qed.

(** C9 (amended). The retry loop has no bound on its attempts and no
    exhaustion error: it draws until a candidate outside the used set
    appears and returns that candidate. A candidate outside the used set is
    returned at once, with nothing drawn; a used candidate triggers exactly
    one call of [id_generator(size=length)] and a retry on what it drew, so
    the first free candidate drawn is the answer. Observed for any number
    of iterations the loop has either returned a candidate outside the used
    set (the one it started from or one it drew) or is still running, it
    never raises, and an answer once obtained stays; when every identifier
    of the requested length is used, as with the 36 identifiers of length 1,
    it runs for ever. *)
Theorem regenerate_is_unbounded :
  (forall fuel length used x g,
      regenerate fuel length used x g = Looping \/
      exists y g', regenerate fuel length used x g = Ok (y, g') /\ y ∉ used) /\
  (forall fuel extra length used x g r,
      regenerate fuel length used x g = Ok r ->
      regenerate (fuel + extra) length used x g = Ok r) /\
  (forall length used x,
      (forall y, generated length y -> y ∈ used) -> x ∈ used ->
      forall fuel g, regenerate fuel length used x g = Looping) /\
  (forall fuel g,
      regenerate fuel 1 (list_to_set one_char_ids) "A" g = Looping) /\
  (forall fuel length (used : gset string) x g,
      x ∉ used -> regenerate fuel length used x g = Ok (x, g)) /\
  (forall fuel length (used : gset string) x g,
      x ∈ used ->
      exists y g1,
        id_generator length default_chars g = Ok (y, g1) /\
        generated length y /\
        regenerate (S fuel) length used x g
        = regenerate fuel length used y g1 /\
        ((y ∉ used) -> regenerate (S fuel) length used x g = Ok (y, g1))) /\
  (forall length (used : gset string) x g,
      x ∈ used -> regenerate 0 length used x g = Looping) /\
  (forall fuel length used x g y g',
      regenerate fuel length used x g = Ok (y, g') ->
      y = x \/ generated length y).
Proof.
  split; [|split; [|split; [|split; [|split; [|split; [|split]]]]]].
  - intros fuel length used x g.
    destruct (regenerate_outcome fuel length used x g) as [H|(y & g' & H)];
      [by left | right].
    exists y, g'. split; [done|]. by apply regenerate_Ok in H as [? _].
  - intros. by apply regenerate_mono.
  - intros. by apply regenerate_exhausted.
  - intros fuel g. apply regenerate_exhausted.
    + intros y Hy. apply elem_of_list_to_set. by apply generated_one_char.
    + apply elem_of_list_to_set. left.
  - intros fuel length used x g Hx.
    destruct fuel; simpl; by destruct (decide (x ∈ used)).
  - intros fuel length used x g Hx.
    destruct (id_generator_generated length g) as (y & g1 & Hy & Hgen).
    exists y, g1. split; [done|]. split; [done|].
    assert (Hstep : regenerate (S fuel) length used x g
                    = regenerate fuel length used y g1).
    { simpl. destruct (decide (x ∈ used)); [|done].
      by rewrite (bind_eq_Ok _ _ _ _ _ Hy). }
    split; [exact Hstep|].
    intros Hfree. rewrite Hstep.
    destruct fuel; simpl; by destruct (decide (y ∈ used)).
  - intros length used x g Hx. simpl. by destruct (decide (x ∈ used)).
  - intros fuel length used x g y g' H. by apply regenerate_Ok in H as [_ ?].
Qed.

Lemma regenerate_is_unbounded_witness :
  regenerate 3 8 {["AAAAAAAA"]} "AAAAAAAA" slow_source
  = Ok ("BBBBBBBB", {| draws := draws slow_source; cursor := 24 |}) /\
  regenerate (3 + 2) 8 {["AAAAAAAA"]} "AAAAAAAA" slow_source
  = Ok ("BBBBBBBB", {| draws := draws slow_source; cursor := 24 |}) /\
  regenerate 0 8 {["AAAAAAAA"]} "BBBBBBBB" slow_source
  = Ok ("BBBBBBBB", slow_source).
Proof.
  assert (Hrun : regenerate 3 8 {["AAAAAAAA"]} "AAAAAAAA" slow_source
                 = Ok ("BBBBBBBB",
                       {| draws := draws slow_source; cursor := 24 |}))
    by (vm_compute; reflexivity).
  split; [exact Hrun|].
  destruct regenerate_is_unbounded as (_ & Hmono & _ & _ & Hfree & _).
  split; [exact (Hmono 3%nat 2%nat 8%Z _ _ _ _ Hrun)|].
  apply Hfree. intros Hin. apply elem_of_singleton in Hin. discriminate.
Defined.

(** C9 as stated fails: no number of attempts bounds the loop. *)
Lemma retry_loop_has_no_bound :
  ~ exists bound : nat,
      forall (length : Z) (used : gset string) (x : string) (g : RandomState),
        (0 < length)%Z -> regenerate bound length used x g <> Looping.
Proof.
  intros [bound H].
  apply (H 1%Z (list_to_set one_char_ids) "A" slow_source); [reflexivity|].
  apply regenerate_exhausted.
  - intros y Hy. apply elem_of_list_to_set. by apply generated_one_char.
  - apply elem_of_list_to_set. left.
Qed.

(** C10 (amended). For every key and every positive length: a stable
    identifier has [min length 32] characters, hence exactly [length] of them
    only up to 32, all from the base-32 alphabet A-Z, 2-7 and so from the
    default alphabet; a random identifier over a non-empty alphabet has
    exactly [length] characters, all from that alphabet; and so has every
    identifier the retry loop draws. *)
Theorem generated_id_shape
    (scaffold : cell) (length : Z) (rnd_chars : string) (g : RandomState) :
  (0 < length)%Z ->
  (exists id,
      make_scaffold_id scaffold "stable" length rnd_chars g = Ok (id, g) /\
      String.length id = Z.to_nat (Z.min length 32) /\
      ((length <= 32)%Z -> String.length id = Z.to_nat length) /\
      drawn_from b32_alphabet id /\ drawn_from default_chars id) /\
  (rnd_chars <> EmptyString ->
   exists id g',
      make_scaffold_id scaffold "random" length rnd_chars g = Ok (id, g') /\
      String.length id = Z.to_nat length /\
      drawn_from rnd_chars id) /\
  (forall fuel used x y g',
      regenerate fuel length used x g = Ok (y, g') ->
      y = x \/
      (String.length y = Z.to_nat length /\ drawn_from default_chars y)).
Proof.
  intros Hpos. split; [|split].
  - eexists. split; [apply make_scaffold_id_stable|].
    pose proof (_hash_b32_length (scaffold_key scaffold) length) as Hlen.
    pose proof (_hash_b32_drawn (scaffold_key scaffold) length) as Hd.
    split; [apply Hlen; lia|]. split; [|split].
    + intros Hle. rewrite Hlen by lia. f_equal. lia.
    + exact Hd.
    + by apply b32_alphabet_in_default.
  - intros Hne. rewrite make_scaffold_id_random.
    by apply id_generator_Ok.
  - intros fuel used x y g' H. by apply regenerate_Ok in H as [_ ?].
Qed.

Lemma generated_id_shape_witness :
  (0 < 8)%Z /\
  exists id,
    make_scaffold_id (Some "c1ccccc1") "stable" 8 default_chars slow_source
    = Ok (id, slow_source) /\
    String.length id = 8%nat.
Proof.
  split; [reflexivity|].
  destruct (generated_id_shape (Some "c1ccccc1") 8 default_chars slow_source
              eq_refl) as [(id & Hrun & Hlen & _) _].
  exists id. split; [exact Hrun | exact Hlen].
Defined.

(** C10 as stated fails for stable identifiers longer than the encoded
    digest: asked for 40 characters, the hash yields 32. *)
Lemma stable_id_of_length_40_has_32_characters :
  make_scaffold_id (Some "c1ccccc1") "stable" 40 default_chars slow_source
  = Ok ("QREAIMMBXGTLBIRTA5X6KCUALJTKUJCK", slow_source) /\
  String.length "QREAIMMBXGTLBIRTA5X6KCUALJTKUJCK" = 32%nat /\
  String.length "QREAIMMBXGTLBIRTA5X6KCUALJTKUJCK" <> Z.to_nat 40.
Proof.
  split; [|split].
  - rewrite make_scaffold_id_stable. vm_compute. reflexivity.
  - reflexivity.
  - vm_compute. discriminate.
Qed.

(** * Further properties of the module *)

(** ** Frames *)

Lemma column_set_column_ne df c c' cells :
  c <> c' -> column (set_column df c cells) c' = column df c'.
Proof.
  intros Hne. induction df as [|[name old] df IH]; simpl.
  - by destruct (decide (c = c')).
  - destruct (decide (name = c)) as [->|Hn]; simpl.
    + by destruct (decide (c = c')).
    + by destruct (decide (name = c')).
Qed.

Lemma set_column_same df c cells :
  column df c = Some cells -> set_column df c cells = df.
Proof.
  induction df as [|[name old] df IH]; simpl; [done|].
  destruct (decide (name = c)) as [->|Hn]; intros H.
  - by simplify_eq.
  - by rewrite IH.
Qed.

Lemma set_column_names df c cells :
  (set_column df c cells).*1
  = match column df c with
    | Some _ => df.*1
    | None => (df.*1 ++ [c])%list
    end.
Proof.
  induction df as [|[name old] df IH]; simpl; [done|].
  destruct (decide (name = c)) as [->|Hn]; [done|].
  rewrite fmap_cons, IH. by destruct (column df c).
Qed.

Lemma progress_apply_length {A B} (f : A -> M B) xs g ys g' :
  progress_apply f xs g = Ok (ys, g') -> List.length ys = List.length xs.
Proof.
  revert g ys g'. induction xs as [|x xs IH]; intros g ys g' H; simpl in H.
  - by inv_ret H.
  - inv_bind H. inv_bind H. inv_ret H. simpl. f_equal. eauto.
Qed.

(** X1. A frame [assign_ids] returns is the input frame with the identifier
    column set: every other column is the one of the input, the identifier
    column has one cell per row, and the column names are those of the input,
    followed by the identifier column when the input had none. *)
Theorem assign_ids_keeps_the_frame
    (df : DataFrame) (scaffold_col id_col strategy : string) (length : Z)
    (fuel : nat) (g : RandomState) (scaffolds : list cell) (out : DataFrame)
    (g' : RandomState) :
  column df scaffold_col = Some scaffolds ->
  assign_ids df scaffold_col id_col strategy length fuel g = Ok (out, g') ->
  (forall c, c <> id_col -> column out c = column df c) /\
  (exists ids,
      column out id_col = Some ids /\
      List.length ids = List.length scaffolds) /\
  out.*1 = match column df id_col with
           | Some _ => df.*1
           | None => (df.*1 ++ [id_col])%list
           end.
Proof.
  intros Hcol H. unfold assign_ids in H. rewrite Hcol in H.
  inv_bind H. inv_bind H. inv_ret H.
  apply progress_apply_length in Hrun.
  assert (Hlen : List.length a0 = List.length scaffolds).
  { destruct (decide (strategy = "random")).
    - inv_bind Hrun0. inv_ret Hrun0.
      destruct a1 as [ys seen]. simpl.
      apply progress_apply_with_steps, steps_length in Hrun1. congruence.
    - inv_ret Hrun0. done. }
  split; [|split].
  - intros c Hc. by apply column_set_column_ne.
  - eexists. split; [apply column_set_column|]. by rewrite length_fmap.
  - apply set_column_names.
Qed.

Lemma assign_ids_keeps_the_frame_witness :
  exists ids,
    column [("name", [Some "benzene"; Some "toluene"]);
            ("scaffold_smiles", [Some "c1ccccc1"; Some "c1ccccc1"]);
            ("scaffold_id", [Some "QREAIM"; Some "QREAIM"])] "scaffold_id"
    = Some ids /\
    List.length ids = 2%nat.
Proof.
  destruct (assign_ids_keeps_the_frame
              [("name", [Some "benzene"; Some "toluene"]);
               ("scaffold_smiles", [Some "c1ccccc1"; Some "c1ccccc1"])]
              "scaffold_smiles" "scaffold_id" "stable" 6 0 slow_source
              [Some "c1ccccc1"; Some "c1ccccc1"]
              [("name", [Some "benzene"; Some "toluene"]);
               ("scaffold_smiles", [Some "c1ccccc1"; Some "c1ccccc1"]);
               ("scaffold_id", [Some "QREAIM"; Some "QREAIM"])]
              slow_source eq_refl)
    as (_ & Hids & _); [vm_compute; reflexivity|].
  exact Hids.
Defined.

(** X2. A frame [extrapolate_ids] returns is the new frame with the
    identifier column set: every other column of the new frame is kept, the
    identifier column has one cell per row of the new frame, and no column
    of the registry frame is carried over. *)
Theorem extrapolate_ids_keeps_the_new_frame
    (existing_df new_df : DataFrame) (scaffold_col id_col strategy_new : string)
    (length : Z) (fuel : nat) (g : RandomState)
    (reg_keys reg_ids scaffolds : list cell) (out : DataFrame)
    (g' : RandomState) :
  column existing_df scaffold_col = Some reg_keys ->
  column existing_df id_col = Some reg_ids ->
  column new_df scaffold_col = Some scaffolds ->
  extrapolate_ids existing_df new_df scaffold_col id_col strategy_new
    length fuel g = Ok (out, g') ->
  (forall c, c <> id_col -> column out c = column new_df c) /\
  (exists ids,
      column out id_col = Some ids /\
      List.length ids = List.length scaffolds) /\
  out.*1 = match column new_df id_col with
           | Some _ => new_df.*1
           | None => (new_df.*1 ++ [id_col])%list
           end.
Proof.
  intros Hkeys Hids Hnew Hrun.
  destruct (extrapolate_ids_Ok _ _ _ _ _ _ _ Hkeys Hids Hnew _ _ _ _ _ _ Hrun)
    as (ids & s' & _ & -> & Hcol & Hlen).
  split; [|split].
  - intros c Hc. by apply column_set_column_ne.
  - by exists ids.
  - apply set_column_names.
Qed.

Lemma extrapolate_ids_keeps_the_new_frame_witness :
  exists ids,
    column [("scaffold_smiles", [Some "c1ccccc1"; Some "c1ccncc1"]);
            ("scaffold_id", [Some "AB12CD"; Some "N2CYWJ"])] "scaffold_id"
    = Some ids /\
    List.length ids = 2%nat.
Proof.
  destruct (extrapolate_ids_keeps_the_new_frame benzene_registry two_rows
              "scaffold_smiles" "scaffold_id" "stable" 6 0 slow_source
              [Some "c1ccccc1"] [Some "AB12CD"]
              [Some "c1ccccc1"; Some "c1ccncc1"]
              [("scaffold_smiles", [Some "c1ccccc1"; Some "c1ccncc1"]);
               ("scaffold_id", [Some "AB12CD"; Some "N2CYWJ"])]
              slow_source eq_refl eq_refl eq_refl)
    as (_ & Hids & _); [vm_compute; reflexivity|].
  exact Hids.
Defined.

(** ** The lookup, row by row *)

Lemma elem_of_zip_lookup (ks vs : list cell) k v :
  (k, v) ∈ zip ks vs <->
  exists n, ks !! n = Some k /\ vs !! n = Some v.
Proof.
  rewrite list_elem_of_lookup. split.
  - intros [n Hn]. exists n.
    apply lookup_zip_with_Some in Hn as (x & y & Heq & Hx & Hy).
    by simplify_eq.
  - intros (n & Hk & Hv). exists n.
    apply lookup_zip_with_Some. by exists k, v.
Qed.

Lemma fold_insert_not_in (l : list (cell * cell)) (m : gmap cell cell) k :
  k ∉ l.*1 ->
  fold_left (fun m kv => <[kv.1 := kv.2]> m) l m !! k = m !! k.
Proof.
  revert m. induction l as [|[k' v'] l IH]; intros m Hk; simpl; [done|].
  rewrite fmap_cons in Hk. apply not_elem_of_cons in Hk as [Hne Hk].
  rewrite IH by done. simpl in *. by rewrite lookup_insert_ne.
Qed.

Lemma fold_insert_last (l : list (cell * cell)) (m : gmap cell cell) n k v :
  l !! n = Some (k, v) ->
  (forall j v', (n < j)%nat -> l !! j <> Some (k, v')) ->
  fold_left (fun m kv => <[kv.1 := kv.2]> m) l m !! k = Some v.
Proof.
  revert m n. induction l as [|[k' v'] l IH]; intros m n Hn Hlast;
    [by rewrite lookup_nil in Hn|].
  destruct n as [|n]; simpl in *.
  - simplify_eq. rewrite fold_insert_not_in; [apply lookup_insert_eq|].
    intros Hin. apply list_elem_of_fmap in Hin as ([k' v'] & Hk & Hin).
    simpl in Hk. subst k'.
    apply list_elem_of_lookup in Hin as [j Hj].
    apply (Hlast (S j) v'); [lia | done].
  - apply (IH _ n); [done|].
    intros j v'' Hj. apply (Hlast (S j) v''). lia.
Qed.

(** When the lookup holds the scaffold of every row, the rows receive the
    identifiers it holds; nothing is drawn, the captured set is not
    touched and the strategy is never looked at. *)
Lemma progress_apply_with_lookup mapping strategy_new length fuel xs ys s g :
  Forall2 (fun k i => mapping !! k = Some i) xs ys ->
  progress_apply_with (get_or_make_id mapping strategy_new length fuel) xs s g
  = Ok ((ys, s), g).
Proof.
  induction 1 as [|k i xs ys Hk _ IH]; [done|]. simpl.
  rewrite (bind_eq_Ok _ _ _ _ _ (get_or_make_id_known _ _ _ _ _ _ _ _ Hk)).
  simpl. by rewrite (bind_eq_Ok _ _ _ _ _ IH).
Qed.

Lemma progress_apply_with_unknown_strategy mapping strategy_new length fuel
    xs s g :
  strategy_new <> "stable" -> strategy_new <> "random" ->
  Exists (fun k => mapping !! k = None) xs ->
  progress_apply_with (get_or_make_id mapping strategy_new length fuel) xs s g
  = Raise ValueError_strategy.
Proof.
  intros Hs Hr Hex. induction xs as [|x xs IH]; [by apply Exists_nil in Hex|].
  simpl. destruct (mapping !! x) as [i|] eqn:Hx.
  - rewrite (bind_eq_Ok _ _ _ _ _ (get_or_make_id_known _ _ _ _ _ _ _ _ Hx)).
    simpl. apply bind_eq_Raise, IH.
    apply Exists_cons in Hex as [Hex|Hex]; [congruence | done].
  - apply bind_eq_Raise. unfold get_or_make_id. rewrite Hx.
    apply bind_eq_Raise. by apply make_scaffold_id_unknown.
Qed.

(** X3. Extrapolating an annotated frame against itself returns that very
    frame and draws nothing, whatever the strategy, as soon as equal
    scaffolds carry equal identifiers in it. *)
Theorem extrapolate_ids_against_itself
    (df : DataFrame) (scaffold_col id_col strategy_new : string) (length : Z)
    (fuel : nat) (g : RandomState) (keys ids : list cell) :
  column df scaffold_col = Some keys ->
  column df id_col = Some ids ->
  List.length keys = List.length ids ->
  (forall n m k,
      keys !! n = Some k -> keys !! m = Some k -> ids !! n = ids !! m) ->
  extrapolate_ids df df scaffold_col id_col strategy_new length fuel g
  = Ok (df, g).
Proof.
  intros Hkeys Hids Hlen Hfun.
  rewrite (extrapolate_ids_run df df scaffold_col id_col keys ids keys
             Hkeys Hids Hkeys).
  assert (Hall : Forall2 (fun k i => dict_zip keys ids !! k = Some i)
                         keys ids).
  { apply Forall2_same_length_lookup_2; [done|].
    intros n k i Hk Hi.
    destruct (dict_zip_present keys ids k) as (i' & Hi' & Hin).
    { apply list_elem_of_fmap. exists (k, i). split; [done|].
      apply elem_of_zip_lookup. by exists n. }
    rewrite Hi'. f_equal.
    apply elem_of_zip_lookup in Hin as (m & Hkm & Him).
    specialize (Hfun n m k Hk Hkm). congruence. }
  rewrite (bind_eq_Ok _ _ _ _ _
             (progress_apply_with_lookup _ strategy_new length fuel _ _
                (list_to_set (astype_str <$> ids)) g Hall)).
  unfold ret. simpl. by rewrite set_column_same.
Qed.

Lemma extrapolate_ids_against_itself_witness :
  extrapolate_ids
    [("scaffold_smiles", [Some "c1ccccc1"; Some "c1ccncc1"; Some "c1ccccc1"]);
     ("scaffold_id", [Some "AB12CD"; Some "ZZ99ZZ"; Some "AB12CD"])]
    [("scaffold_smiles", [Some "c1ccccc1"; Some "c1ccncc1"; Some "c1ccccc1"]);
     ("scaffold_id", [Some "AB12CD"; Some "ZZ99ZZ"; Some "AB12CD"])]
    "scaffold_smiles" "scaffold_id" "random" 8 0 slow_source
  = Ok ([("scaffold_smiles",
          [Some "c1ccccc1"; Some "c1ccncc1"; Some "c1ccccc1"]);
         ("scaffold_id", [Some "AB12CD"; Some "ZZ99ZZ"; Some "AB12CD"])],
        slow_source).
Proof.
  apply (extrapolate_ids_against_itself _ "scaffold_smiles" "scaffold_id"
           "random" 8 0 slow_source
           [Some "c1ccccc1"; Some "c1ccncc1"; Some "c1ccccc1"]
           [Some "AB12CD"; Some "ZZ99ZZ"; Some "AB12CD"]);
    [reflexivity | reflexivity | reflexivity |].
  intros n m k Hn Hm.
  destruct n as [|[|[|n]]], m as [|[|[|m]]]; simpl in *;
    by simplify_eq.
Defined.

Lemma zip_fmap_elem (f : cell -> cell) (l : list cell) k i :
  (k, i) ∈ zip l (f <$> l) -> i = f k.
Proof.
  intros (n & Hk & Hi)%elem_of_zip_lookup.
  rewrite list_lookup_fmap, Hk in Hi. simpl in Hi. by simplify_eq.
Qed.

(** X4. Stable extrapolation agrees with stable assignment: when the
    registry was annotated by [assign_ids] under ['stable'] with the same
    length, extrapolating a new frame against it under ['stable'] returns
    exactly what [assign_ids] under ['stable'] returns on the new frame
    alone; a scaffold receives the same identifier whether the registry
    knows it or not. *)
Theorem stable_extrapolation_is_stable_assignment
    (df new_df : DataFrame) (scaffold_col id_col : string) (length : Z)
    (fuel fuel' : nat) (g g' : RandomState) (keys scaffolds : list cell) :
  scaffold_col <> id_col ->
  column df scaffold_col = Some keys ->
  column new_df scaffold_col = Some scaffolds ->
  exists registry,
    assign_ids df scaffold_col id_col "stable" length fuel g
    = Ok (registry, g) /\
    extrapolate_ids registry new_df scaffold_col id_col "stable" length
      fuel' g'
    = assign_ids new_df scaffold_col id_col "stable" length fuel' g'.
Proof.
  intros Hne Hkeys Hnew.
  set (h := fun s : cell => Some (_hash_b32 (scaffold_key s) length)).
  exists (set_column df id_col (h <$> keys)).
  split.
  - rewrite (assign_ids_stable _ _ _ _ _ _ _ Hkeys).
    by rewrite <- list_fmap_compose.
  - rewrite (extrapolate_ids_stable _ new_df scaffold_col id_col keys
               (h <$> keys) scaffolds).
    + rewrite (assign_ids_stable _ _ _ _ _ _ _ Hnew).
      rewrite <- list_fmap_compose. do 3 f_equal.
      apply list_fmap_ext. intros _ k _. unfold stable_cell.
      destruct (dict_zip keys (h <$> keys) !! k) as [i|] eqn:Hk; [|done].
      unfold dict_zip in Hk. apply fold_insert_lookup in Hk as [Hk|Hk].
      * by apply zip_fmap_elem in Hk.
      * by rewrite lookup_empty in Hk.
    + rewrite column_set_column_ne by done. exact Hkeys.
    + apply column_set_column.
    + exact Hnew.
Qed.

Lemma stable_extrapolation_is_stable_assignment_witness :
  exists registry,
    assign_ids worked_example "scaffold_smiles" "scaffold_id" "stable" 6 0
      slow_source = Ok (registry, slow_source) /\
    extrapolate_ids registry two_rows "scaffold_smiles" "scaffold_id"
      "stable" 6 0 slow_source
    = assign_ids two_rows "scaffold_smiles" "scaffold_id" "stable" 6 0
        slow_source.
Proof.
  apply (stable_extrapolation_is_stable_assignment worked_example two_rows
           "scaffold_smiles" "scaffold_id" 6 0 0 slow_source slow_source
           [Some "c1ccccc1"; Some "c1ccccc1"; Some "NCCc1ccccc1"]
           [Some "c1ccccc1"; Some "c1ccncc1"]);
    [discriminate | reflexivity | reflexivity].
Defined.

(** X5. [extrapolate_ids] never validates [strategy_new] itself: with a
    value outside ['stable'] and ['random'] the call still returns, with the
    identifiers of the lookup and nothing drawn, when the lookup holds the
    scaffold of every row; it raises the strategy error as soon as one row
    has a scaffold the lookup does not hold. *)
Theorem extrapolate_ids_unknown_strategy
    (existing_df new_df : DataFrame) (scaffold_col id_col strategy_new : string)
    (length : Z) (fuel : nat) (g : RandomState)
    (reg_keys reg_ids scaffolds : list cell) :
  strategy_new <> "stable" -> strategy_new <> "random" ->
  column existing_df scaffold_col = Some reg_keys ->
  column existing_df id_col = Some reg_ids ->
  column new_df scaffold_col = Some scaffolds ->
  (forall ids,
      Forall2 (fun k i => dict_zip reg_keys reg_ids !! k = Some i)
              scaffolds ids ->
      extrapolate_ids existing_df new_df scaffold_col id_col strategy_new
        length fuel g = Ok (set_column new_df id_col ids, g)) /\
  (Exists (fun k => dict_zip reg_keys reg_ids !! k = None) scaffolds ->
   extrapolate_ids existing_df new_df scaffold_col id_col strategy_new
     length fuel g = Raise ValueError_strategy).
Proof.
  intros Hs Hr Hkeys Hids Hnew. split.
  - intros ids Hall.
    rewrite (extrapolate_ids_run _ _ _ _ _ _ _ Hkeys Hids Hnew).
    by rewrite (bind_eq_Ok _ _ _ _ _
                  (progress_apply_with_lookup _ strategy_new length fuel _ _
                     (list_to_set (astype_str <$> reg_ids)) g Hall)).
  - intros Hex.
    rewrite (extrapolate_ids_run _ _ _ _ _ _ _ Hkeys Hids Hnew).
    by apply bind_eq_Raise, progress_apply_with_unknown_strategy.
Qed.

Lemma extrapolate_ids_unknown_strategy_witness :
  extrapolate_ids benzene_registry two_rows "scaffold_smiles" "scaffold_id"
    "md5" 8 0 slow_source = Raise ValueError_strategy.
Proof.
  apply (extrapolate_ids_unknown_strategy benzene_registry two_rows
           "scaffold_smiles" "scaffold_id" "md5" 8 0 slow_source
           [Some "c1ccccc1"] [Some "AB12CD"]
           [Some "c1ccccc1"; Some "c1ccncc1"]);
    [discriminate | discriminate | reflexivity | reflexivity | reflexivity |].
  apply Exists_cons_tl, Exists_cons_hd. vm_compute. reflexivity.
Defined.

(** X6. When the registry lists a scaffold in several rows, the lookup keeps
    the identifier of the last of them: every row of the new frame with that
    scaffold receives the identifier of the last registry row that lists
    it. *)
Theorem registry_last_row_wins
    (existing_df new_df : DataFrame) (scaffold_col id_col strategy_new : string)
    (length : Z) (fuel : nat) (g : RandomState)
    (reg_keys reg_ids scaffolds : list cell) (out : DataFrame)
    (g' : RandomState) (n : nat) (k i : cell) :
  column existing_df scaffold_col = Some reg_keys ->
  column existing_df id_col = Some reg_ids ->
  column new_df scaffold_col = Some scaffolds ->
  reg_keys !! n = Some k -> reg_ids !! n = Some i ->
  (forall m, (n < m)%nat -> m < List.length reg_ids ->
             reg_keys !! m <> Some k)%nat ->
  extrapolate_ids existing_df new_df scaffold_col id_col strategy_new
    length fuel g = Ok (out, g') ->
  dict_zip reg_keys reg_ids !! k = Some i /\
  exists ids,
    column out id_col = Some ids /\
    forall r, scaffolds !! r = Some k -> ids !! r = Some i.
Proof.
  intros Hkeys Hids Hnew Hk Hi Hlast Hrun.
  assert (Hlook : dict_zip reg_keys reg_ids !! k = Some i).
  { unfold dict_zip. apply (fold_insert_last _ _ n).
    - apply lookup_zip_with_Some. by exists k, i.
    - intros j v' Hj Hzip.
      apply lookup_zip_with_Some in Hzip as (x & y & Heq & Hx & Hy).
      simplify_eq. apply (Hlast j Hj); [|done].
      by apply lookup_lt_Some in Hy. }
  split; [done|].
  destruct (extrapolate_ids_Ok _ _ _ _ _ _ _ Hkeys Hids Hnew _ _ _ _ _ _ Hrun)
    as (ids & s' & Hsteps & _ & Hcol & _).
  exists ids. split; [done|].
  intros r Hr. eapply steps_known; eauto.
Qed.

Lemma registry_last_row_wins_witness :
  dict_zip [Some "c1ccccc1"; Some "c1ccncc1"; Some "c1ccccc1"]
           [Some "OLD111"; Some "ZZ99ZZ"; Some "NEW222"]
    !! Some "c1ccccc1" = Some (Some "NEW222").
Proof.
  refine (proj1 (registry_last_row_wins
            [("scaffold_smiles",
              [Some "c1ccccc1"; Some "c1ccncc1"; Some "c1ccccc1"]);
             ("scaffold_id",
              [Some "OLD111"; Some "ZZ99ZZ"; Some "NEW222"])]
            two_rows "scaffold_smiles" "scaffold_id" "stable" 6 0 slow_source
            [Some "c1ccccc1"; Some "c1ccncc1"; Some "c1ccccc1"]
            [Some "OLD111"; Some "ZZ99ZZ"; Some "NEW222"]
            [Some "c1ccccc1"; Some "c1ccncc1"]
            [("scaffold_smiles", [Some "c1ccccc1"; Some "c1ccncc1"]);
             ("scaffold_id", [Some "NEW222"; Some "ZZ99ZZ"])]
            slow_source 2%nat (Some "c1ccccc1") (Some "NEW222")
            eq_refl eq_refl eq_refl eq_refl eq_refl _ _)).
  - intros m Hm Hlen. simpl in Hlen. lia.
  - vm_compute. reflexivity.
Defined.

(** ** The random generator, draw by draw *)

Lemma join_choices_draws n chars g :
  chars <> EmptyString ->
  exists s,
    join_choices n chars g
    = Ok (s, {| draws := draws g; cursor := cursor g + n |}) /\
    String.length s = n /\
    forall i c,
      String.get i s = Some c ->
      String.get (draws g (cursor g + i) mod String.length chars)%nat chars
      = Some c.
Proof.
  intros Hne. revert g. induction n as [|n IH]; intros g.
  - exists EmptyString. split; [|split; [done|]].
    + simpl. unfold ret. rewrite Nat.add_0_r. by destruct g.
    + intros i c Hi. by destruct i.
  - destruct (IH (advance g)) as (s & Hs & Hlen & Hget).
    assert (Hpos : (0 < String.length chars)%nat).
    { destruct chars; [done | simpl; lia]. }
    destruct (get_is_Some (draws g (cursor g) mod String.length chars)
                chars) as [c Hc].
    { by apply Nat.mod_upper_bound, Nat.neq_0_lt_0. }
    assert (Hchoice : random_choice chars g = Ok (c, advance g)).
    { unfold random_choice.
      destruct (String.length chars) as [|k] eqn:Hk; [lia|]. by rewrite Hc. }
    exists (String c s). split; [|split].
    + simpl. rewrite (bind_eq_Ok _ _ _ _ _ Hchoice), (bind_eq_Ok _ _ _ _ _ Hs).
      unfold ret. simpl. do 3 f_equal. lia.
    + simpl. by rewrite Hlen.
    + intros [|i] c' Hi; simpl in Hi.
      * simplify_eq. by rewrite Nat.add_0_r.
      * apply Hget in Hi. simpl in Hi.
        by replace (cursor g + S i)%nat with (S (cursor g + i)) by lia.
Qed.

(** X7. [id_generator] over a non-empty alphabet consumes exactly [size]
    draws (none for a size of zero or less) and returns [size] characters,
    the i-th being the character of the alphabet at the i-th of these draws
    modulo the alphabet's length; over an empty alphabet it raises for any
    positive size, and still returns the empty identifier for a size of
    zero or less. *)
Theorem id_generator_draws (size : Z) (chars : string) (g : RandomState) :
  (chars <> EmptyString ->
   exists s,
     id_generator size chars g
     = Ok (s, {| draws := draws g; cursor := cursor g + Z.to_nat size |}) /\
     String.length s = Z.to_nat size /\
     forall i c,
       String.get i s = Some c ->
       String.get (draws g (cursor g + i) mod String.length chars)%nat chars
       = Some c) /\
  ((0 < size)%Z ->
   id_generator size EmptyString g = Raise IndexError_choice) /\
  ((size <= 0)%Z -> id_generator size chars g = Ok (EmptyString, g)).
Proof.
  split; [|split].
  - intros Hne. by apply join_choices_draws.
  - intros Hpos. unfold id_generator.
    destruct (Z.to_nat size) as [|n] eqn:Hn; [lia | reflexivity].
  - intros Hle. unfold id_generator.
    replace (Z.to_nat size) with 0%nat by lia. reflexivity.
Qed.

Lemma id_generator_draws_witness :
  exists s,
    id_generator 3 "AB" {| draws := fun i => i; cursor := 4 |}
    = Ok (s, {| draws := fun i => i; cursor := 4 + 3 |}) /\
    String.length s = 3%nat.
Proof.
  destruct (proj1 (id_generator_draws 3 "AB"
                     {| draws := fun i => i; cursor := 4 |}))
    as (s & Hrun & Hlen & _); [discriminate|].
  exists s. split; [exact Hrun | exact Hlen].
Defined.

(** ** How many rows ['random'] can serve *)

Lemma flat_map_length_const {A B} (f : A -> list B) (l : list A) k :
  (forall x, List.length (f x) = k) ->
  List.length (flat_map f l) = (List.length l * k)%nat.
Proof.
  intros Hf. induction l as [|x l IH]; simpl; [done|].
  by rewrite length_app, Hf, IH.
Qed.

Lemma all_ids_length n : List.length (all_ids n) = (36 ^ n)%nat.
Proof.
  induction n as [|n IH]; [done|].
  cbn [all_ids].
  rewrite (flat_map_length_const _ _ (36 ^ n)%nat).
  - change (List.length (list_ascii_of_string default_chars)) with 36%nat.
    by rewrite Nat.pow_succ_r'.
  - intros c. by rewrite length_fmap.
Qed.

Lemma drawn_in_all_ids y :
  drawn_from default_chars y -> y ∈ all_ids (String.length y).
Proof.
  unfold drawn_from. induction y as [|c y IH]; intros Hd.
  - left.
  - simpl in Hd. apply Forall_cons in Hd as [Hc Hy].
    cbn [String.length all_ids].
    apply list_elem_of_In, in_flat_map. exists c. split.
    + by apply list_elem_of_In.
    + apply list_elem_of_In, list_elem_of_fmap. exists y. auto.
Qed.

Lemma generated_capacity length (ids : list string) :
  NoDup ids -> Forall (generated length) ids ->
  (List.length ids <= 36 ^ Z.to_nat length)%nat.
Proof.
  intros Hnd Hgen. rewrite <- all_ids_length.
  apply submseteq_length, NoDup_submseteq; [done|].
  intros y Hy. rewrite Forall_forall in Hgen.
  destruct (Hgen y Hy) as [Hlen Hd]. rewrite <- Hlen.
  by apply drawn_in_all_ids.
Qed.

(** X8. Under ['random'] a frame can only be served while identifiers of the
    requested length remain: whenever [assign_ids] returns, the frame has at
    most 36 ^ length rows, and on a frame with more rows the call never
    returns, whatever the random source, because the retry loop of
    [ensure_unique] has nothing left to find. *)
Theorem assign_ids_random_capacity
    (df : DataFrame) (scaffold_col id_col : string) (length : Z)
    (scaffolds : list cell) :
  column df scaffold_col = Some scaffolds ->
  (forall fuel g out g',
      assign_ids df scaffold_col id_col "random" length fuel g
      = Ok (out, g') ->
      (List.length scaffolds <= 36 ^ Z.to_nat length)%nat) /\
  ((36 ^ Z.to_nat length < List.length scaffolds)%nat ->
   forall fuel g,
     assign_ids df scaffold_col id_col "random" length fuel g = Looping).
Proof.
  intros Hcol.
  assert (Hcap : forall fuel g out g',
             assign_ids df scaffold_col id_col "random" length fuel g
             = Ok (out, g') ->
             (List.length scaffolds <= 36 ^ Z.to_nat length)%nat).
  { intros fuel g out g' H.
    apply (assign_ids_random_Ok _ _ _ _ _ _ scaffolds) in H
      as (ids & _ & Hlen & Hnd & Hgen); [|done].
    rewrite <- Hlen. by apply generated_capacity. }
  split; [exact Hcap|].
  intros Hmore fuel g.
  destruct (assign_ids_random_outcome df scaffold_col id_col length fuel g
              scaffolds Hcol) as [H|(out & g' & H)]; [exact H|].
  apply Hcap in H. lia.
Qed.

Lemma assign_ids_random_capacity_witness :
  assign_ids [("scaffold_smiles", [Some "c1ccccc1"; None])]
    "scaffold_smiles" "scaffold_id" "random" 0 5 slow_source = Looping.
Proof.
  refine (proj2 (assign_ids_random_capacity
                   [("scaffold_smiles", [Some "c1ccccc1"; None])]
                   "scaffold_smiles" "scaffold_id" 0
                   [Some "c1ccccc1"; None] eq_refl) _ 5%nat slow_source).
  simpl. lia.
Defined.

(** ** Runs without collisions *)

Lemma ensure_unique_pass_without_collisions fuel length xs s g :
  NoDup xs -> (forall x, x ∈ xs -> x ∉ s) ->
  exists s',
    progress_apply_with (ensure_unique fuel length) xs s g = Ok ((xs, s'), g).
Proof.
  intros Hnd. revert s. induction Hnd as [|x xs Hx _ IH]; intros s Hs.
  - by exists s.
  - destruct (IH ({[x]} ∪ s)) as [s' Hs'].
    { intros y Hy. specialize (Hs y). set_solver. }
    exists s'. simpl. unfold ensure_unique at 1.
    destruct (decide (x ∈ s)) as [Hin|_].
    { exfalso. apply (Hs x); [left | done]. }
    unfold bind at 1, ret at 1. simpl.
    by rewrite (bind_eq_Ok _ _ _ _ _ Hs').
Qed.

(** X9. Under ['random'], when the identifiers drawn in the first pass are
    pairwise distinct, [assign_ids] returns exactly these identifiers: the
    pass of [ensure_unique] changes nothing, draws nothing more and never
    enters its retry loop. *)
Theorem assign_ids_random_without_collisions
    (df : DataFrame) (scaffold_col id_col : string) (length : Z) (fuel : nat)
    (g : RandomState) (scaffolds : list cell) (xs : list string)
    (g1 : RandomState) :
  column df scaffold_col = Some scaffolds ->
  progress_apply (fun s => make_scaffold_id s "random" length default_chars)
    scaffolds g = Ok (xs, g1) ->
  NoDup xs ->
  assign_ids df scaffold_col id_col "random" length fuel g
  = Ok (set_column df id_col (Some <$> xs), g1).
Proof.
  intros Hcol Hfirst Hnd. unfold assign_ids. rewrite Hcol.
  rewrite (bind_eq_Ok _ _ _ _ _ Hfirst).
  destruct (decide ("random" = "random")); [|done].
  destruct (ensure_unique_pass_without_collisions fuel length xs ∅ g1 Hnd)
    as [s' Hs']; [set_solver|].
  erewrite bind_eq_Ok; [reflexivity|].
  by rewrite (bind_eq_Ok _ _ _ _ _ Hs').
Qed.

Lemma assign_ids_random_without_collisions_witness :
  assign_ids worked_example "scaffold_smiles" "scaffold_id" "random" 16 0
    slow_source
  = Ok (set_column worked_example "scaffold_id"
          (Some <$> ["AAAAAAAAAAAAAAAA"; "BBBBBBBBBBBBBBBB";
                     "CCCCCCCCCCCCCCCC"]),
        {| draws := draws slow_source; cursor := 48 |}).
Proof.
  apply (assign_ids_random_without_collisions worked_example
           "scaffold_smiles" "scaffold_id" 16 0 slow_source
           [Some "c1ccccc1"; Some "c1ccccc1"; Some "NCCc1ccccc1"]).
  - reflexivity.
  - vm_compute. reflexivity.
  - apply (bool_decide_unpack _). vm_compute. exact I.
Defined.

(** X10. Under ['random'] the scaffolds are never read: two frames with the
    same number of rows receive the same identifier column from the same
    random source, whatever their scaffolds, so equal scaffolds do not
    receive equal identifiers. *)
Theorem random_ids_ignore_the_scaffolds
    (df1 df2 : DataFrame) (scaffold_col id_col : string) (length : Z)
    (fuel : nat) (g : RandomState) (scaffolds1 scaffolds2 : list cell)
    (out1 : DataFrame) (g' : RandomState) :
  column df1 scaffold_col = Some scaffolds1 ->
  column df2 scaffold_col = Some scaffolds2 ->
  List.length scaffolds1 = List.length scaffolds2 ->
  assign_ids df1 scaffold_col id_col "random" length fuel g = Ok (out1, g') ->
  exists ids,
    column out1 id_col = Some ids /\
    assign_ids df2 scaffold_col id_col "random" length fuel g
    = Ok (set_column df2 id_col ids, g').
Proof.
  intros Hc1 Hc2 Hlen H.
  assert (Hsame : forall g0,
             progress_apply
               (fun s => make_scaffold_id s "random" length default_chars)
               scaffolds1 g0
             = progress_apply
                 (fun s => make_scaffold_id s "random" length default_chars)
                 scaffolds2 g0).
  { clear -Hlen. revert scaffolds2 Hlen.
    induction scaffolds1 as [|x xs IH]; intros [|y ys] Hlen g0;
      try discriminate; [done|].
    simpl. unfold bind at 1 3. rewrite !make_scaffold_id_random.
    destruct (id_generator length default_chars g0) as [[a g1]| |]; [|done..].
    unfold bind. rewrite (IH ys) by (simpl in Hlen; lia). done. }
  unfold assign_ids in *. rewrite Hc1 in H. rewrite Hc2.
  inv_bind H. rewrite Hsame in Hrun. rewrite (bind_eq_Ok _ _ _ _ _ Hrun).
  inv_bind H. rewrite (bind_eq_Ok _ _ _ _ _ Hrun0). inv_ret H.
  eexists. split; [apply column_set_column | reflexivity].
Qed.

Lemma random_ids_ignore_the_scaffolds_witness :
  exists ids,
    column [("scaffold_smiles",
             [Some "c1ccccc1"; Some "c1ccccc1"; Some "NCCc1ccccc1"]);
            ("scaffold_id",
             [Some "AAAAAAAA"; Some "BBBBBBBB"; Some "CCCCCCCC"])]
      "scaffold_id" = Some ids /\
    assign_ids [("scaffold_smiles", [None; Some "c1ccncc1"; None])]
      "scaffold_smiles" "scaffold_id" "random" 8 1 slow_source
    = Ok (set_column [("scaffold_smiles", [None; Some "c1ccncc1"; None])]
            "scaffold_id" ids,
          {| draws := draws slow_source; cursor := 40 |}).
Proof.
  apply (random_ids_ignore_the_scaffolds worked_example
           [("scaffold_smiles", [None; Some "c1ccncc1"; None])]
           "scaffold_smiles" "scaffold_id" 8 1 slow_source
           [Some "c1ccccc1"; Some "c1ccccc1"; Some "NCCc1ccccc1"]
           [None; Some "c1ccncc1"; None]);
    [reflexivity | reflexivity | reflexivity |].
  vm_compute. reflexivity.
Defined.

(** ** Slices of the stable hash *)

Lemma take_str_prefix n m s :
  (n <= m)%nat -> String.prefix (take_str n s) (take_str m s) = true.
Proof.
  revert m s. induction n as [|n IH]; intros m s Hnm.
  { simpl. by destruct (take_str m s). }
  destruct m as [|m]; [lia|]. destruct s as [|c s]; [done|].
  simpl. destruct (ascii_dec c c); [|done]. apply IH. lia.
Qed.

Lemma take_str_all n s :
  (String.length s <= n)%nat -> take_str n s = s.
Proof.
  revert s. induction n as [|n IH]; intros [|c s] H; simpl in *;
    try done; try lia.
  f_equal. apply IH. lia.
Qed.

(** X11. The stable hash is a slice of one 32-character text: for lengths
    from 0 up, a shorter identifier is a prefix of a longer one and every
    length from 32 up yields the same 32 characters; length 0 yields the
    empty identifier; a negative length -k does not fail but drops the last
    k characters, yielding 32 - k characters (none from k = 32 on). *)
Theorem _hash_b32_slices (text : string) :
  (forall n m,
      (0 <= n <= m)%Z ->
      String.prefix (_hash_b32 text n) (_hash_b32 text m) = true) /\
  (forall n, (32 <= n)%Z -> _hash_b32 text n = _hash_b32 text 32) /\
  _hash_b32 text 0 = EmptyString /\
  (forall k,
      (0 < k)%Z ->
      _hash_b32 text (- k) = _hash_b32 text (Z.max 0 (32 - k)) /\
      String.length (_hash_b32 text (- k)) = Z.to_nat (32 - k)).
Proof.
  destruct (encoded_digest_spec text) as [Hlen _]. cbv zeta in Hlen.
  unfold _hash_b32. cbv zeta.
  set (b32 := rstrip_char "="%char
                (b32encode (SHA1.digest (utf8_encode text)))) in *.
  repeat apply conj.
  - intros n m Hnm. unfold slice_to.
    destruct (Z.ltb_spec n 0), (Z.ltb_spec m 0); try lia.
    apply take_str_prefix. lia.
  - intros n Hn. unfold slice_to.
    destruct (Z.ltb_spec n 0); [lia|].
    destruct (Z.ltb_spec 32 0); [lia|].
    rewrite !take_str_all; [done | lia | lia].
  - reflexivity.
  - intros k Hk. unfold slice_to.
    destruct (Z.ltb_spec (- k) 0); [|lia].
    destruct (Z.ltb_spec (Z.max 0 (32 - k)) 0); [lia|].
    rewrite take_str_length, Hlen. split; [f_equal|]; lia.
Qed.

Lemma _hash_b32_slices_witness :
  String.prefix (_hash_b32 "c1ccccc1" 6) (_hash_b32 "c1ccccc1" 8) = true.
Proof.
  apply (proj1 (_hash_b32_slices "c1ccccc1") 6%Z 8%Z). lia.
Defined.

(** ** Blanks around a key *)

Lemma lstrip_blank_app l s : blank l -> lstrip (l ++ s) = lstrip s.
Proof.
  unfold blank. induction l as [|c l IH]; simpl; intros H; [done|].
  apply Forall_cons in H as [Hc Hl]. rewrite Hc. by apply IH.
Qed.

Lemma lstrip_blank r : blank r -> lstrip r = EmptyString.
Proof.
  unfold blank. induction r as [|c r IH]; simpl; intros H; [done|].
  apply Forall_cons in H as [Hc Hr]. rewrite Hc. by apply IH.
Qed.

Lemma rstrip_by_all p r :
  Forall (fun c => p c = true) (list_ascii_of_string r) ->
  rstrip_by p r = EmptyString.
Proof.
  induction r as [|c r IH]; simpl; intros H; [done|].
  apply Forall_cons in H as [Hc Hr]. by rewrite IH, Hc.
Qed.

Lemma rstrip_by_app_all p s r :
  Forall (fun c => p c = true) (list_ascii_of_string r) ->
  rstrip_by p (s ++ r) = rstrip_by p s.
Proof.
  intros Hr. induction s as [|c s IH]; simpl.
  - by apply rstrip_by_all.
  - by rewrite IH.
Qed.

Lemma rstrip_by_idempotent p s :
  rstrip_by p (rstrip_by p s) = rstrip_by p s.
Proof.
  induction s as [|c s IH]; simpl; [done|].
  destruct (rstrip_by p s) as [|d r] eqn:Hr.
  - destruct (p c) eqn:Hc; simpl; [done|]. by rewrite Hc.
  - cbn [rstrip_by] in *. by rewrite IH.
Qed.

Lemma strip_app_blank s r : blank r -> strip (s ++ r) = strip s.
Proof.
  intros Hr. unfold strip. induction s as [|c s IH]; simpl.
  - change (String.append EmptyString r) with r.
    by rewrite (lstrip_blank r Hr).
  - destruct (isspace c); [exact IH|].
    by apply (rstrip_by_app_all isspace (String c s) r).
Qed.

Lemma strip_idempotent s : strip (strip s) = strip s.
Proof.
  unfold strip.
  assert (Hhead : forall t, lstrip t = EmptyString \/
                            exists c u, lstrip t = String c u /\
                                        isspace c = false).
  { induction t as [|c t IH]; simpl; [by left|].
    destruct (isspace c) eqn:Hc; [exact IH|]. right. by exists c, t. }
  destruct (Hhead s) as [->|(c & u & -> & Hc)]; [done|].
  assert (Hkeep : exists v, rstrip_by isspace (String c u) = String c v).
  { simpl. destruct (rstrip_by isspace u); [|by eexists].
    rewrite Hc. by eexists. }
  destruct Hkeep as [v Hv]. rewrite Hv. cbn [lstrip]. rewrite Hc.
  rewrite <- Hv. apply rstrip_by_idempotent.
Qed.

(** X12. Keys that differ only by white space around them receive the same
    stable identifier, and so does a key already stripped: stripping a
    stripped key changes nothing. *)
Theorem stable_id_ignores_blanks_around_the_key
    (l s r : string) (length : Z) (chars : string) (g : RandomState) :
  blank l -> blank r ->
  make_scaffold_id (Some (l ++ s ++ r)) "stable" length chars g
  = make_scaffold_id (Some s) "stable" length chars g /\
  make_scaffold_id (Some (strip s)) "stable" length chars g
  = make_scaffold_id (Some s) "stable" length chars g /\
  strip (strip s) = strip s.
Proof.
  intros Hl Hr. rewrite !make_scaffold_id_stable. simpl scaffold_key.
  split; [|split].
  - do 3 f_equal. unfold strip at 1. rewrite lstrip_blank_app by done.
    by apply strip_app_blank.
  - by rewrite strip_idempotent.
  - apply strip_idempotent.
Qed.

Lemma stable_id_ignores_blanks_around_the_key_witness :
  make_scaffold_id (Some ("  " ++ "c1ccccc1" ++ " ")) "stable" 6
    default_chars slow_source
  = make_scaffold_id (Some "c1ccccc1") "stable" 6 default_chars slow_source.
Proof.
  refine (proj1 (stable_id_ignores_blanks_around_the_key "  " "c1ccccc1" " "
                   6 default_chars slow_source _ _)).
  - apply (bool_decide_unpack _). vm_compute. exact I.
  - apply (bool_decide_unpack _). vm_compute. exact I.
Defined.

(** X13. The encoded SHA-1 digest never carries padding: a digest has 20
    bytes, four whole 5-byte quanta, so its base-32 text has 32 characters
    of the alphabet A-Z, 2-7 and [rstrip('=')] removes nothing from it. *)
Theorem encoded_digest_has_no_padding (msg : list Z) :
  List.length (SHA1.digest msg) = 20%nat /\
  String.length (b32encode (SHA1.digest msg)) = 32%nat /\
  drawn_from b32_alphabet (b32encode (SHA1.digest msg)) /\
  rstrip_char "="%char (b32encode (SHA1.digest msg))
  = b32encode (SHA1.digest msg).
Proof.
  pose proof (digest_length msg) as Hd.
  rewrite (b32encode_20 _ Hd).
  destruct (b32_quanta_spec 4 (SHA1.digest msg)) as [Hl Hf].
  split; [done|]. split; [|split].
  - by rewrite string_of_list_length.
  - unfold drawn_from. by rewrite list_ascii_of_string_of_list_ascii.
  - unfold rstrip_char. apply rstrip_by_none.
    rewrite list_ascii_of_string_of_list_ascii.
    eapply Forall_impl; [exact Hf|]. intros c Hc. by apply equals_not_b32.
Qed.

(** X14. Under ['stable'] the identifier of a row depends on nothing but its
    own scaffold: in any two frames, under any column names and random
    sources, two rows whose scaffolds agree once stripped (or are both
    missing) receive the same identifier, and every call returns. *)
Theorem stable_ids_agree_across_frames
    (df1 df2 : DataFrame) (scaffold_col1 id_col1 scaffold_col2 id_col2 : string)
    (length : Z) (fuel1 fuel2 : nat) (g1 g2 : RandomState)
    (keys1 keys2 : list cell) :
  column df1 scaffold_col1 = Some keys1 ->
  column df2 scaffold_col2 = Some keys2 ->
  exists ids1 ids2,
    assign_ids df1 scaffold_col1 id_col1 "stable" length fuel1 g1
    = Ok (set_column df1 id_col1 ids1, g1) /\
    assign_ids df2 scaffold_col2 id_col2 "stable" length fuel2 g2
    = Ok (set_column df2 id_col2 ids2, g2) /\
    forall n m k1 k2,
      keys1 !! n = Some k1 -> keys2 !! m = Some k2 ->
      scaffold_key k1 = scaffold_key k2 ->
      is_Some (ids1 !! n) /\ ids1 !! n = ids2 !! m.
Proof.
  intros Hc1 Hc2. eexists _, _.
  split; [by apply assign_ids_stable|]. split; [by apply assign_ids_stable|].
  intros n m k1 k2 Hn Hm Hkey.
  rewrite !list_lookup_fmap, Hn, Hm. simpl. rewrite Hkey. by split.
Qed.

Lemma stable_ids_agree_across_frames_witness :
  exists ids1 ids2,
    assign_ids worked_example "scaffold_smiles" "scaffold_id" "stable" 6 0
      slow_source = Ok (set_column worked_example "scaffold_id" ids1,
                        slow_source) /\
    assign_ids [("core", [None; Some " c1ccccc1"])] "core" "core_id"
      "stable" 6 3 slow_source
    = Ok (set_column [("core", [None; Some " c1ccccc1"])] "core_id" ids2,
          slow_source) /\
    ids1 !! 0%nat = ids2 !! 1%nat.
Proof.
  destruct (stable_ids_agree_across_frames worked_example
              [("core", [None; Some " c1ccccc1"])]
              "scaffold_smiles" "scaffold_id" "core" "core_id" 6 0 3
              slow_source slow_source
              [Some "c1ccccc1"; Some "c1ccccc1"; Some "NCCc1ccccc1"]
              [None; Some " c1ccccc1"] eq_refl eq_refl)
    as (ids1 & ids2 & H1 & H2 & Hsame).
  exists ids1, ids2. split; [exact H1|]. split; [exact H2|].
  apply (Hsame 0%nat 1%nat (Some "c1ccccc1") (Some " c1ccccc1"));
    [reflexivity | reflexivity |].
  vm_compute. reflexivity.
Defined.
